(** * CPE calculation platform: a shallow embedding in Rocq

    The TypeScript sources model a storyboard as a list of [Slide]s; the hook
    [useCpeCalculator] aggregates the active slides into CPE metrics, the
    [SlideEditor] component drives the per-slide life cycle (finalize,
    discard, undo discard) and [fileParser] turns spreadsheets into slides.

    Conventions of the embedding:
    - a JS [number] is an exact rational [Q] (the idealisation of IEEE
      doubles); where the code applies [x || 0] to a possibly-NaN input the
      number is [jsnum], which also has [JNaN];
    - a JS [string] is a [list ascii];
    - optional fields ([x?: T]) are [option T];
    - side effects of React handlers ([onUpdate], [setState]) are returned
      explicitly, the current time is an argument. *)

From Stdlib Require Import QArith Qround Qminmax Lqa List Ascii String Bool ZArith Lia.
Import ListNotations.

(** ** Strings *)

Definition jsstring := list ascii.

Definition js (s : string) : jsstring := list_ascii_of_string s.

(** The ASCII/Latin-1 part of the JS [\s] class (also what [trim] removes):
    tab, line feed, vertical tab, form feed, carriage return, space, NBSP. *)
Definition is_ws (c : ascii) : bool :=
  match nat_of_ascii c with
  | 9%nat | 10%nat | 11%nat | 12%nat | 13%nat | 32%nat | 160%nat => true
  | _ => false
  end.

Fixpoint trim_start (s : jsstring) : jsstring :=
  match s with
  | [] => []
  | c :: r => if is_ws c then trim_start r else s
  end.

(** [String.prototype.trim]. *)
Definition trim (s : jsstring) : jsstring :=
  rev (trim_start (rev (trim_start s))).

(** [s.split(/\s+/)]: the separators are maximal runs of whitespace; [cur]
    is the token being read and [in_sep] says the previous character was
    whitespace. *)
Fixpoint split_ws_aux (cur : jsstring) (in_sep : bool) (s : jsstring)
  : list jsstring :=
  match s with
  | [] => [cur]
  | c :: r =>
      if is_ws c then
        if in_sep then split_ws_aux [] true r
        else cur :: split_ws_aux [] true r
      else split_ws_aux (cur ++ [c]) false r
  end.

Definition split_ws (s : jsstring) : list jsstring := split_ws_aux [] false s.

(** [Boolean(t)] for a string: non-empty. *)
Definition truthy_str (t : jsstring) : bool :=
  match t with [] => false | _ => true end.

(** [getWordCount] of [useCpeCalculator] (and of [SlideEditor]):
    [text.trim().split(/\s+/).filter(Boolean).length]. *)
Definition getWordCount (text : jsstring) : nat :=
  List.length (filter truthy_str (split_ws (trim text))).

Open Scope Q_scope.

(** ** Data model ([types.ts]) *)

Inductive SourceType := OST | AUDIO | BOTH.

Inductive AudioSource := Upload | Manual.

Inductive Simulated := SimUpload | SimTranscription | SimTrim | SimNone.

Record Segment := { seg_start : Q; seg_end : Q; seg_text : jsstring }.

Record Transcription := { segments : list Segment; tr_wordCount : Q }.

Record AudioMeta := {
  source : AudioSource;
  fileId : option jsstring;
  fileName : option jsstring;
  fileSize : option Q;
  originalDuration : option Q;
  trimmedDuration : option Q;
  trimmedRanges : option (list (Q * Q));
  isTrimmed : option bool;
  simulated : option Simulated;
  commandSnippet : option jsstring;
  transcription : option Transcription
}.

Record Slide := {
  id : Z;
  ost : jsstring;
  transcript : jsstring;
  selectedSource : SourceType;
  audioDuration : Q;
  isFinalized : bool;
  audioMeta : AudioMeta;
  isDiscarded : option bool;
  discardReason : option jsstring;
  discardNote : option jsstring;
  discardedAt : option jsstring;
  discardedBy : option jsstring;
  undoAt : option jsstring;
  undoBy : option jsstring
}.

Record CpeMetrics := {
  totalWords : Q;
  totalAvMinutes : Q;
  totalQuestions : Q;
  wordsCpe : Q;
  avCpe : Q;
  questionsCpe : Q;
  rawCpeHours : Q;
  roundedCpe : Q
}.

(** ** Numbers *)

Inductive jsnum := JNum (q : Q) | JNaN.

(** [x || 0]: the falsy numbers ([0], [-0], [NaN]) become [0]. *)
Definition or_zero (x : jsnum) : Q :=
  match x with
  | JNaN => 0
  | JNum q => if Qeq_bool q 0 then 0 else q
  end.

(** [Math.floor]. *)
Definition math_floor (x : Q) : Q := inject_Z (Qfloor x).

(** [x > y]. *)
Definition js_gt (x y : Q) : bool := negb (Qle_bool x y).

(** ** The calculator ([hooks/useCpeCalculator.ts]) *)

(** [!slide.isDiscarded]. *)
Definition is_active (slide : Slide) : bool :=
  match isDiscarded slide with
  | Some true => false
  | _ => true
  end.

Record Totals := { acc_totalWords : Q; acc_totalAvMinutes : Q }.

(** The reducer passed to [activeSlides.reduce]. *)
Definition reduce_step (acc : Totals) (slide : Slide) : Totals :=
  match selectedSource slide with
  | OST =>
      {| acc_totalWords :=
           acc_totalWords acc + inject_Z (Z.of_nat (getWordCount (ost slide)));
         acc_totalAvMinutes := acc_totalAvMinutes acc |}
  | AUDIO =>
      {| acc_totalWords := acc_totalWords acc;
         acc_totalAvMinutes := acc_totalAvMinutes acc + audioDuration slide |}
  | BOTH =>
      {| acc_totalWords :=
           acc_totalWords acc + inject_Z (Z.of_nat (getWordCount (ost slide)));
         acc_totalAvMinutes := acc_totalAvMinutes acc + audioDuration slide |}
  end.

Definition totals0 : Totals := {| acc_totalWords := 0; acc_totalAvMinutes := 0 |}.

Definition useCpeCalculator (slides : list Slide)
    (reviewQuestions finalExamQuestions : jsnum) : CpeMetrics :=
  let activeSlides := filter is_active slides in
  let totals := fold_left reduce_step activeSlides totals0 in
  let totalQuestions := or_zero reviewQuestions + or_zero finalExamQuestions in
  let wordsCpe := acc_totalWords totals / 180 in
  let avCpe := acc_totalAvMinutes totals in
  let questionsCpe := totalQuestions * (185 # 100) in
  let totalCpeMinutes := wordsCpe + avCpe + questionsCpe in
  let rawCpeHours := totalCpeMinutes / 60 in
  let roundedCpe := math_floor (rawCpeHours * 2) / 2 in
  {| totalWords := acc_totalWords totals;
     totalAvMinutes := acc_totalAvMinutes totals;
     totalQuestions := totalQuestions;
     wordsCpe := wordsCpe;
     avCpe := avCpe;
     questionsCpe := questionsCpe;
     rawCpeHours := rawCpeHours;
     roundedCpe := if js_gt roundedCpe 0 then roundedCpe else 0 |}.

(** The rounding step alone, as a function of the raw hours. *)
Definition round_half (raw : Q) : Q :=
  let r := math_floor (raw * 2) / 2 in
  if js_gt r 0 then r else 0.

(** ** The slide editor ([components/SlideEditor.tsx]) *)

(** The state of a mounted [SlideEditor]: the [slide] prop and the
    component's [useState] cells that the handlers read or write. *)
Record EditorState := {
  ed_slide : Slide;
  ed_ost : jsstring;
  ed_transcript : jsstring;
  ed_selectedSource : SourceType;
  ed_isFinalized : bool;
  ed_finalizeError : option jsstring;
  ed_isDiscardModalOpen : bool;
  ed_discardReason : jsstring;
  ed_discardNote : jsstring;
  ed_audioMeta : AudioMeta;
  ed_minutes : jsnum;
  ed_seconds : jsnum;
  ed_audioDuration : Q
}.

Definition set_finalize (st : EditorState) (err : option jsstring)
    (fin : bool) : EditorState :=
  {| ed_slide := ed_slide st; ed_ost := ed_ost st;
     ed_transcript := ed_transcript st;
     ed_selectedSource := ed_selectedSource st;
     ed_isFinalized := fin; ed_finalizeError := err;
     ed_isDiscardModalOpen := ed_isDiscardModalOpen st;
     ed_discardReason := ed_discardReason st;
     ed_discardNote := ed_discardNote st; ed_audioMeta := ed_audioMeta st;
     ed_minutes := ed_minutes st; ed_seconds := ed_seconds st;
     ed_audioDuration := ed_audioDuration st |}.

(** [setFinalizeError(err)] alone. *)
Definition set_finalizeError (st : EditorState) (err : option jsstring)
  : EditorState := set_finalize st err (ed_isFinalized st).

(** [setAudioDuration(d)]. *)
Definition set_audioDuration (st : EditorState) (d : Q) : EditorState :=
  {| ed_slide := ed_slide st; ed_ost := ed_ost st;
     ed_transcript := ed_transcript st;
     ed_selectedSource := ed_selectedSource st;
     ed_isFinalized := ed_isFinalized st;
     ed_finalizeError := ed_finalizeError st;
     ed_isDiscardModalOpen := ed_isDiscardModalOpen st;
     ed_discardReason := ed_discardReason st;
     ed_discardNote := ed_discardNote st; ed_audioMeta := ed_audioMeta st;
     ed_minutes := ed_minutes st; ed_seconds := ed_seconds st;
     ed_audioDuration := d |}.

(** The effect on [minutes]/[seconds]:
    [setAudioDuration((minutes || 0) + (seconds || 0) / 60)]. *)
Definition sync_audioDuration (st : EditorState) : EditorState :=
  set_audioDuration st (or_zero (ed_minutes st) + or_zero (ed_seconds st) / 60).

(** [setIsDiscardModalOpen(b)]. *)
Definition set_discardModalOpen (st : EditorState) (b : bool) : EditorState :=
  {| ed_slide := ed_slide st; ed_ost := ed_ost st;
     ed_transcript := ed_transcript st;
     ed_selectedSource := ed_selectedSource st;
     ed_isFinalized := ed_isFinalized st;
     ed_finalizeError := ed_finalizeError st;
     ed_isDiscardModalOpen := b;
     ed_discardReason := ed_discardReason st;
     ed_discardNote := ed_discardNote st; ed_audioMeta := ed_audioMeta st;
     ed_minutes := ed_minutes st; ed_seconds := ed_seconds st;
     ed_audioDuration := ed_audioDuration st |}.

(** What a handler returns: its boolean result, the editor state after its
    [setState] calls, and the slide it passed to [onUpdate] (or to
    [onDiscardAndNext]), if any. *)
Record Outcome := {
  out_result : bool;
  out_state : EditorState;
  out_update : option Slide
}.

Definition finalizeErrorMsg : jsstring :=
  js "Please enter audio duration for the selected source before finalizing.".

(** [{ ...slide, ost, transcript, selectedSource, audioDuration, audioMeta,
       isFinalized: fin }]. *)
Definition snapshot (st : EditorState) (fin : bool) : Slide :=
  let slide := ed_slide st in
  {| id := id slide; ost := ed_ost st; transcript := ed_transcript st;
     selectedSource := ed_selectedSource st;
     audioDuration := ed_audioDuration st; isFinalized := fin;
     audioMeta := ed_audioMeta st; isDiscarded := isDiscarded slide;
     discardReason := discardReason slide; discardNote := discardNote slide;
     discardedAt := discardedAt slide; discardedBy := discardedBy slide;
     undoAt := undoAt slide; undoBy := undoBy slide |}.

Definition is_audio_or_both (src : SourceType) : bool :=
  match src with AUDIO | BOTH => true | OST => false end.

(** [handleFinalize]: finalizes a draft (guarded) or unlocks a finalized
    slide. *)
Definition handleFinalize (st : EditorState) : Outcome :=
  if negb (ed_isFinalized st) && is_audio_or_both (ed_selectedSource st)
     && Qeq_bool (ed_audioDuration st) 0
  then {| out_result := false;
          out_state := set_finalizeError st (Some finalizeErrorMsg);
          out_update := None |}
  else
    let finalizedState := negb (ed_isFinalized st) in
    {| out_result := true;
       out_state := set_finalize st None finalizedState;
       out_update := Some (snapshot st finalizedState) |}.

(** [handleDiscardConfirm]; [now] is [new Date().toISOString()]. *)
Definition handleDiscardConfirm (st : EditorState) (now : jsstring) : Outcome :=
  match ed_discardReason st with
  | [] => {| out_result := false; out_state := st; out_update := None |}
  | discardReason =>
      let slide := ed_slide st in
      let discardedSlide :=
        {| id := id slide; ost := ed_ost st; transcript := ed_transcript st;
           selectedSource := ed_selectedSource st;
           audioDuration := ed_audioDuration st;
           isFinalized := isFinalized slide;
           audioMeta := ed_audioMeta st; isDiscarded := Some true;
           discardReason := Some discardReason;
           discardNote :=
             Some (if list_eq_dec ascii_dec discardReason (js "Other")
                   then ed_discardNote st else []);
           discardedAt := Some now; discardedBy := Some (js "user");
           undoAt := undoAt slide; undoBy := undoBy slide |} in
      {| out_result := true;
         out_state := set_discardModalOpen st false;
         out_update := Some discardedSlide |}
  end.

(** [handleUndoDiscard]: [onUpdate({ ...slide, isDiscarded: false,
    undoAt, undoBy: 'user' })]. *)
Definition handleUndoDiscard (st : EditorState) (now : jsstring) : Outcome :=
  let slide := ed_slide st in
  {| out_result := true;
     out_state := st;
     out_update :=
       Some {| id := id slide; ost := ost slide; transcript := transcript slide;
               selectedSource := selectedSource slide;
               audioDuration := audioDuration slide;
               isFinalized := isFinalized slide;
               audioMeta := audioMeta slide; isDiscarded := Some false;
               discardReason := discardReason slide;
               discardNote := discardNote slide;
               discardedAt := discardedAt slide;
               discardedBy := discardedBy slide;
               undoAt := Some now; undoBy := Some (js "user") |} |}.

(** A freshly mounted editor on [slide]: every [useState] cell starts from
    the prop ([minutes]/[seconds] are split from [audioDuration] in the
    source; here they are carried as given). *)
Definition mount (slide : Slide) (minutes seconds : jsnum) : EditorState :=
  {| ed_slide := slide; ed_ost := ost slide;
     ed_transcript := transcript slide;
     ed_selectedSource := selectedSource slide;
     ed_isFinalized := isFinalized slide; ed_finalizeError := None;
     ed_isDiscardModalOpen := false; ed_discardReason := [];
     ed_discardNote := []; ed_audioMeta := audioMeta slide;
     ed_minutes := minutes; ed_seconds := seconds;
     ed_audioDuration := audioDuration slide |}.

(** ** The spreadsheet parsers ([services/fileParser.ts]) *)

(** [toLowerCase] on the ASCII letters. *)
Definition lower_char (c : ascii) : ascii :=
  let n := nat_of_ascii c in
  if (65 <=? n)%nat && (n <=? 90)%nat then ascii_of_nat (n + 32) else c.

Definition toLowerCase (s : jsstring) : jsstring := map lower_char s.

Definition jsstring_eqb (a b : jsstring) : bool :=
  if list_eq_dec ascii_dec a b then true else false.

Fixpoint findIndex_aux {A} (p : A -> bool) (i : nat) (l : list A) : option nat :=
  match l with
  | [] => None
  | x :: r => if p x then Some i else findIndex_aux p (S i) r
  end.

(** [findColumn]: [None] stands for [-1]. *)
Fixpoint findColumn (header : list jsstring) (potentialNames : list jsstring)
  : option nat :=
  match potentialNames with
  | [] => None
  | name :: rest =>
      match findIndex_aux
              (fun h => jsstring_eqb (trim (toLowerCase h)) (toLowerCase name))
              0 header with
      | Some index => Some index
      | None => findColumn header rest
      end
  end.

Definition is_digit (c : ascii) : bool :=
  let n := nat_of_ascii c in (48 <=? n)%nat && (n <=? 57)%nat.

Fixpoint digits_aux (acc : Z) (seen : bool) (s : jsstring) : option Z :=
  match s with
  | c :: r =>
      if is_digit c
      then digits_aux (acc * 10 + Z.of_nat (nat_of_ascii c - 48))%Z true r
      else if seen then Some acc else None
  | [] => if seen then Some acc else None
  end.

(** [parseInt(s, 10)]: leading whitespace, an optional sign, then the longest
    run of decimal digits; [None] is [NaN]. *)
Definition parseInt10 (s : jsstring) : option Z :=
  match trim_start s with
  | c :: r =>
      if ascii_dec c "-"%char then option_map Z.opp (digits_aux 0 false r)
      else if ascii_dec c "+"%char then digits_aux 0 false r
      else digits_aux 0 false (c :: r)
  | [] => None
  end.

(** [!isNaN(idFromCell) && idFromCell > 0]. *)
Definition valid_id (x : option Z) : bool :=
  match x with Some z => (0 <? z)%Z | None => false end.

Definition manual_meta : AudioMeta :=
  {| source := Manual; fileId := None; fileName := None; fileSize := None;
     originalDuration := None; trimmedDuration := None;
     trimmedRanges := None; isTrimmed := None; simulated := None;
     commandSnippet := None; transcription := None |}.

Definition createSlideObject (id : Z) (ost transcript : jsstring) : Slide :=
  {| id := id; ost := ost; transcript := transcript; selectedSource := OST;
     audioDuration := 0; isFinalized := false; audioMeta := manual_meta;
     isDiscarded := Some false; discardReason := None; discardNote := None;
     discardedAt := None; discardedBy := None; undoAt := None;
     undoBy := None |}.

(** [arr.map((x, index) => f(index, x))]. *)
Fixpoint mapi_from {A B} (f : nat -> A -> B) (i : nat) (l : list A) : list B :=
  match l with
  | [] => []
  | x :: r => f i x :: mapi_from f (S i) r
  end.

Definition ost_names := [js "ost"; js "on-screen text"].
Definition transcript_names := [js "transcript"; js "audio"].
Definition slideNo_names :=
  [js "slide no"; js "slide #"; js "slideno"; js "slide number"].

(** A cell of [sheet_to_json(worksheet, { header: 1 })], by its text;
    [None] is an absent ([undefined]) cell. *)
Definition cell := option jsstring.

(** [String(h)] for a header cell. *)
Definition header_text (h : cell) : jsstring :=
  match h with Some s => s | None => js "undefined" end.

(** [String(row[i] || '')]. *)
Definition cell_text (row : list cell) (i : nat) : jsstring :=
  match nth_error row i with Some (Some s) => s | _ => [] end.

Definition opt_cell_text (row : list cell) (idx : option nat) : jsstring :=
  match idx with Some i => cell_text row i | None => [] end.

(** The source's messages quote the column names; the quotes are left out
    here. *)
Definition xlsxMissingColumns : jsstring :=
  js "Could not find OST or Transcript columns in the Excel file.".

(** [parseXlsx] from the rows of the first sheet on; [inl] is a rejection. *)
Definition parseXlsx (json : list (list cell)) : jsstring + list Slide :=
  match json with
  | [] | [_] => inr []
  | header_row :: dataRows =>
      let header := map header_text header_row in
      let ostIndex := findColumn header ost_names in
      let transcriptIndex := findColumn header transcript_names in
      let slideNoIndex := findColumn header slideNo_names in
      match ostIndex, transcriptIndex with
      | None, None => inl xlsxMissingColumns
      | _, _ =>
          let keep row :=
            match slideNoIndex with
            | Some i => valid_id (parseInt10 (cell_text row i))
            | None =>
                let ostContent := trim (opt_cell_text row ostIndex) in
                let transcriptContent :=
                  trim (opt_cell_text row transcriptIndex) in
                (0 <? List.length ostContent)%nat
                || (0 <? List.length transcriptContent)%nat
            end in
          let build index row :=
            let slideId :=
              match slideNoIndex with
              | Some i =>
                  let idFromCell := parseInt10 (cell_text row i) in
                  match idFromCell with
                  | Some z => if (0 <? z)%Z then z else Z.of_nat (index + 1)
                  | None => Z.of_nat (index + 1)
                  end
              | None => Z.of_nat (index + 1)
              end in
            createSlideObject slideId (opt_cell_text row ostIndex)
              (opt_cell_text row transcriptIndex) in
          inr (mapi_from build 0 (filter keep dataRows))
      end
  end.

(** A CSV record of Papa Parse with [header: true]: field name to text. *)
Definition csv_row := list (jsstring * jsstring).

Definition csv_get (row : csv_row) (key : jsstring) : jsstring :=
  match find (fun kv => jsstring_eqb (fst kv) key) row with
  | Some (_, v) => v
  | None => []
  end.

Definition find_key (header : list jsstring) (names : list jsstring)
  : option jsstring :=
  find (fun h => existsb (jsstring_eqb (trim (toLowerCase h))) names) header.

Definition opt_csv_get (row : csv_row) (key : option jsstring) : jsstring :=
  match key with Some k => csv_get row k | None => [] end.

Definition csvMissingColumns : jsstring :=
  js "Could not find OST or Transcript columns in the CSV file.".

(** [parseCsv] from Papa Parse's [results] on. *)
Definition parseCsv (header : list jsstring) (data : list csv_row)
  : jsstring + list Slide :=
  let ostKey := find_key header ost_names in
  let transcriptKey := find_key header transcript_names in
  let slideNoKey := find_key header slideNo_names in
  match ostKey, transcriptKey with
  | None, None => inl csvMissingColumns
  | _, _ =>
      let keep row :=
        match slideNoKey with
        | Some k => valid_id (parseInt10 (csv_get row k))
        | None =>
            let ostContent := trim (opt_csv_get row ostKey) in
            let transcriptContent := trim (opt_csv_get row transcriptKey) in
            (0 <? List.length ostContent)%nat
            || (0 <? List.length transcriptContent)%nat
        end in
      let build index row :=
        let slideId :=
          match slideNoKey with
          | Some k =>
              match parseInt10 (csv_get row k) with
              | Some z => if (0 <? z)%Z then z else Z.of_nat (index + 1)
              | None => Z.of_nat (index + 1)
              end
          | None => Z.of_nat (index + 1)
          end in
        createSlideObject slideId (opt_csv_get row ostKey)
          (opt_csv_get row transcriptKey) in
      inr (mapi_from build 0 (filter keep data))
  end.

(** The discard modal's [setDiscardReason]/[setDiscardNote]. *)
Definition set_discard_choice (st : EditorState) (reason note : jsstring)
  : EditorState :=
  {| ed_slide := ed_slide st; ed_ost := ed_ost st;
     ed_transcript := ed_transcript st;
     ed_selectedSource := ed_selectedSource st;
     ed_isFinalized := ed_isFinalized st;
     ed_finalizeError := ed_finalizeError st;
     ed_isDiscardModalOpen := ed_isDiscardModalOpen st;
     ed_discardReason := reason; ed_discardNote := note;
     ed_audioMeta := ed_audioMeta st;
     ed_minutes := ed_minutes st; ed_seconds := ed_seconds st;
     ed_audioDuration := ed_audioDuration st |}.

(** ** Number formatting *)

Definition digit_char (d : Z) : ascii := ascii_of_nat (48 + Z.to_nat d).

(** Decimal digits of [n >= 0], least significant first. *)
Fixpoint digits_rev (fuel : nat) (n : Z) : jsstring :=
  match fuel with
  | O => []
  | S f =>
      digit_char (n mod 10)
        :: (if (n / 10 =? 0)%Z then [] else digits_rev f (n / 10))
  end.

(** [String(z)] for an integral number. *)
Definition string_of_Z (z : Z) : jsstring :=
  let n := Z.abs z in
  let ds := rev (digits_rev (S (Z.to_nat (Z.log2 n))) n) in
  if (z <? 0)%Z then "-"%char :: ds else ds.

(** [Math.round]. *)
Definition js_round (x : Q) : Z := Qfloor (x + (1 # 2)).

(** Truncation toward zero. *)
Definition js_trunc (x : Q) : Z :=
  if Qle_bool 0 x then Qfloor x else (- Qfloor (- x))%Z.

(** [x % y] on numbers: the remainder keeps the sign of [x]. *)
Definition js_mod (x y : Q) : Q := x - y * inject_Z (js_trunc (x / y)).

(** [s.padStart(2, '0')]. *)
Definition padStart2 (s : jsstring) : jsstring :=
  if (List.length s <? 2)%nat then repeat "0"%char (2 - List.length s) ++ s
  else s.

Definition dquote : ascii := ascii_of_nat 34.

(** ** The slide editor's duration inputs *)

(** [initialMinutes] and [initialSeconds]: the split of [audioDuration]
    that the [minutes]/[seconds] inputs start from. *)
Definition initialMinutes (slide : Slide) : Z := Qfloor (audioDuration slide).

Definition initialSeconds (slide : Slide) : Z :=
  js_round ((audioDuration slide - inject_Z (initialMinutes slide)) * 60).

(** The editor after mounting and running the [minutes]/[seconds] effect
    once. *)
Definition mounted (slide : Slide) : EditorState :=
  sync_audioDuration
    (mount slide (JNum (inject_Z (initialMinutes slide)))
       (JNum (inject_Z (initialSeconds slide)))).

(** [handleAcceptDuration(durationInSeconds, meta)] on the state cells it
    sets ([isAudioModalOpen] is not part of the modelled state). *)
Definition handleAcceptDuration (st : EditorState) (durationInSeconds : Q)
    (meta : AudioMeta) : EditorState :=
  let newMinutes := Qfloor (durationInSeconds / 60) in
  let newSeconds := js_round (js_mod durationInSeconds 60) in
  {| ed_slide := ed_slide st; ed_ost := ed_ost st;
     ed_transcript := ed_transcript st;
     ed_selectedSource := ed_selectedSource st;
     ed_isFinalized := ed_isFinalized st;
     ed_finalizeError := ed_finalizeError st;
     ed_isDiscardModalOpen := ed_isDiscardModalOpen st;
     ed_discardReason := ed_discardReason st;
     ed_discardNote := ed_discardNote st; ed_audioMeta := meta;
     ed_minutes := JNum (inject_Z newMinutes);
     ed_seconds := JNum (inject_Z newSeconds);
     ed_audioDuration := ed_audioDuration st |}.

(** [handleFinalizeAndNextClick]; [out_result] says whether
    [onFinalizeAndNext] was called. *)
Definition handleFinalizeAndNextClick (st : EditorState) : Outcome :=
  if ed_isFinalized st
  then {| out_result := true; out_state := st; out_update := None |}
  else handleFinalize st.

(** ** The CSV exports ([services/exportService.ts]) *)

(** [formatDurationForAudioExport]: minutes as [m' ss] followed by a double
    quote (an audio duration
    is never NaN in this model, so only the [minutes < 0] test remains). *)
Definition formatDurationForAudioExport (minutes : Q) : jsstring :=
  if js_gt 0 minutes then js "0' 00" ++ [dquote]
  else
    let totalSeconds := minutes * 60 in
    let m := Qfloor (totalSeconds / 60) in
    let s := js_round (js_mod totalSeconds 60) in
    string_of_Z m ++ js "' " ++ padStart2 (string_of_Z s) ++ [dquote].

(** [formatTrimmedDuration]: seconds as [N min n sec]. *)
Definition formatTrimmedDuration (seconds : Q) : jsstring :=
  if Qle_bool seconds 0 then js "0 min 0 sec"
  else
    let m := Qfloor (seconds / 60) in
    let s := js_round (js_mod seconds 60) in
    string_of_Z m ++ js " min " ++ string_of_Z s ++ js " sec".

Definition CR : ascii := ascii_of_nat 13.
Definition LF : ascii := ascii_of_nat 10.

(** [s.replace(/(\r\n|\n|\r)/gm, " ")]. *)
Fixpoint sanitize_newlines (s : jsstring) : jsstring :=
  match s with
  | [] => []
  | c :: r =>
      if ascii_dec c CR then
        match r with
        | c2 :: r2 =>
            if ascii_dec c2 LF then " "%char :: sanitize_newlines r2
            else " "%char :: sanitize_newlines r
        | [] => [" "%char]
        end
      else if ascii_dec c LF then " "%char :: sanitize_newlines r
      else c :: sanitize_newlines r
  end.

(** A value of the array handed to [Papa.unparse]. *)
Inductive csv_value := VNum (q : Q) | VStr (s : jsstring).

Definition is_ost_or_both (src : SourceType) : bool :=
  match src with OST | BOTH => true | AUDIO => false end.

Definition wordCountSlides (slides : list Slide) : list Slide :=
  filter (fun s => is_active s && is_ost_or_both (selectedSource s)) slides.

Definition wordCountOf (s : Slide) : Q := inject_Z (Z.of_nat (getWordCount (ost s))).

(** The [csvData] of [exportWordCountCsv]. *)
Definition exportWordCountData (slides : list Slide) : list (list csv_value) :=
  let ws := wordCountSlides slides in
  let totalWordCount := fold_left (fun sum s => sum + wordCountOf s) ws 0 in
  let headers := [VStr (js "Slide no"); VStr (js "Word Count");
                  VStr (js "Final OST")] in
  let rows := map (fun s => [VNum (inject_Z (id s)); VNum (wordCountOf s);
                             VStr (sanitize_newlines (ost s))]) ws in
  [VStr (js "Total word count:"); VNum totalWordCount] :: [] :: headers :: rows.

Definition audioSlides (slides : list Slide) : list Slide :=
  filter (fun s => is_active s && is_audio_or_both (selectedSource s)) slides.

(** A number field read as a condition: present and non-zero. *)
Definition truthy_num (x : option Q) : bool :=
  match x with Some q => negb (Qeq_bool q 0) | None => false end.

Definition trimmedOutDurationSec (s : Slide) : Q :=
  let meta := audioMeta s in
  if match isTrimmed meta with Some true => true | _ => false end
     && truthy_num (originalDuration meta) && truthy_num (trimmedDuration meta)
  then match originalDuration meta, trimmedDuration meta with
       | Some o, Some t => o - t
       | _, _ => 0
       end
  else 0.

(** The [csvData] of [exportAudioCountCsv]. *)
Definition exportAudioCountData (slides : list Slide) : list (list csv_value) :=
  let au := audioSlides slides in
  let totalAvMinutes := fold_left (fun sum s => sum + audioDuration s) au 0 in
  let headers := [VStr (js "Slide no"); VStr (js "Final Duration");
                  VStr (js "Trimmed out duration")] in
  let rows := map (fun s => [VNum (inject_Z (id s));
                             VStr (formatDurationForAudioExport (audioDuration s));
                             VStr (formatTrimmedDuration (trimmedOutDurationSec s))])
                au in
  [VStr (js "Total AV minutes:");
   VStr (formatDurationForAudioExport totalAvMinutes)] :: [] :: headers :: rows.

(** ** The review and summary screens ([App.tsx], [StatsPanel]) *)

(** [slides.findIndex(s => s.id === activeSlideId)], with [-1] when no slide
    has that id ([null] matches none). *)
Definition findIndexZ (slides : list Slide) (aid : option Z) : Z :=
  match findIndex_aux (fun s => match aid with
                                | Some a => (id s =? a)%Z
                                | None => false
                                end) 0 slides with
  | Some i => Z.of_nat i
  | None => (-1)%Z
  end.

(** [slides[k].id]; the handlers only index inside the list, the fallback
    is never reached. *)
Definition id_at (slides : list Slide) (k : Z) (dflt : option Z) : option Z :=
  match nth_error slides (Z.to_nat k) with
  | Some s => Some (id s)
  | None => dflt
  end.

(** [handleNextSlide]: the new [activeSlideId]. *)
Definition handleNextSlide (slides : list Slide) (aid : option Z) : option Z :=
  let currentNavIndex := findIndexZ slides aid in
  if (currentNavIndex <? Z.of_nat (List.length slides) - 1)%Z
  then id_at slides (currentNavIndex + 1) aid
  else aid.

(** [handlePreviousSlide]: the new [activeSlideId]. *)
Definition handlePreviousSlide (slides : list Slide) (aid : option Z)
  : option Z :=
  let currentNavIndex := findIndexZ slides aid in
  if (0 <? currentNavIndex)%Z
  then id_at slides (currentNavIndex - 1) aid
  else aid.

(** [handleSlideUpdate]: the state update of [slides] (the toasts are
    left out). *)
Definition handleSlideUpdate (slides : list Slide) (updatedSlide : Slide)
  : list Slide :=
  map (fun slide => if (id slide =? id updatedSlide)%Z then updatedSlide
                    else slide) slides.

(** [handleDiscardAndNext]: the new [slides] and [activeSlideId]; the index
    is looked up in the list before the update. *)
Definition handleDiscardAndNext (slides : list Slide) (aid : option Z)
    (updatedSlide : Slide) : list Slide * option Z :=
  let currentIndex := findIndexZ slides (Some (id updatedSlide)) in
  (handleSlideUpdate slides updatedSlide,
   if (currentIndex <? Z.of_nat (List.length slides) - 1)%Z
   then id_at slides (currentIndex + 1) aid
   else if (0 <? currentIndex)%Z then id_at slides (currentIndex - 1) aid
   else None).

(** [allSlidesFinalized], which enables [Complete Review]. *)
Definition allSlidesFinalized (slides : list Slide) : bool :=
  forallb (fun s => isFinalized s) (filter is_active slides).

(** The metrics of [StatsPanel]: finalized active slides only. *)
Definition statsPanelMetrics (slides : list Slide) (r f : jsnum) : CpeMetrics :=
  let activeSlides := filter is_active slides in
  let finalizedSlides := filter (fun s => isFinalized s) activeSlides in
  useCpeCalculator finalizedSlides r f.

(** The metrics of [FinalizationScreen]: all active slides. *)
Definition finalizationMetrics (slides : list Slide) (r f : jsnum)
  : CpeMetrics :=
  useCpeCalculator (filter is_active slides) r f.

(** ** The audio modal ([AudioUploadModal]) *)

(** [formatDuration]: seconds as [mm:ss] (a duration is never NaN here). *)
Definition formatDuration (seconds : Q) : jsstring :=
  if js_gt 0 seconds then js "00:00"
  else
    let mins := Qfloor (seconds / 60) in
    let secs := js_round (js_mod seconds 60) in
    padStart2 (string_of_Z mins) ++ js ":" ++ padStart2 (string_of_Z secs).

(** The [wordCount] of [handleTranscribe], from the segments' texts:
    [acc + s.text.trim().split(/\s+/).length]. *)
Definition transcriptionWordCount (segments : list jsstring) : nat :=
  fold_left (fun acc text => acc + List.length (split_ws (trim text)))%nat
    segments 0%nat.

(** ** The highlighter's [escapeHtml] ([SlideEditor]) *)

(** [s.replace(/c/g, r)] for a single character [c]. *)
Definition replace_char (c : ascii) (r : jsstring) (s : jsstring) : jsstring :=
  flat_map (fun x => if ascii_dec x c then r else [x]) s.

Definition squote : ascii := ascii_of_nat 39.

Definition escapeHtml (unsafe : jsstring) : jsstring :=
  replace_char squote (js "&#039;")
    (replace_char dquote (js "&quot;")
       (replace_char ">"%char (js "&gt;")
          (replace_char "<"%char (js "&lt;")
             (replace_char "&"%char (js "&amp;") unsafe)))).

(** ** File dispatch ([parseFile]) *)

(** [s.split(d)] for a one-character separator. *)
Fixpoint split_on_aux (d : ascii) (cur : jsstring) (s : jsstring)
  : list jsstring :=
  match s with
  | [] => [cur]
  | c :: r =>
      if ascii_dec c d then cur :: split_on_aux d [] r
      else split_on_aux d (cur ++ [c]) r
  end.

Definition split_on (d : ascii) (s : jsstring) : list jsstring :=
  split_on_aux d [] s.

Inductive FileKind := KXlsx | KCsv | KPptx | KUnsupported.

(** The [switch (extension)] of [parseFile]. *)
Definition fileKind_of_extension (extension : jsstring) : FileKind :=
  if jsstring_eqb extension (js "xlsx") || jsstring_eqb extension (js "xls")
  then KXlsx
  else if jsstring_eqb extension (js "csv") then KCsv
  else if jsstring_eqb extension (js "pptx") then KPptx
  else KUnsupported.

(** Which parser [parseFile] runs: [file.name.split('.').pop()?.toLowerCase()]
    ([split] never returns an empty array, so [pop] always has an element). *)
Definition parseFile_kind (name : jsstring) : FileKind :=
  fileKind_of_extension (toLowerCase (last (split_on "."%char name) [])).

(** ** The question inputs ([StatsPanel]) *)

(** The value a [QuestionInput] hands to its setter:
    [parseInt(e.target.value, 10) || 0]. *)
Definition questionInput (value : jsstring) : Q :=
  match parseInt10 value with
  | Some z => if (z =? 0)%Z then 0 else inject_Z z
  | None => 0
  end.

(** ** The summary table ([FinalizationScreen]) *)

(** The [Word Count] cell of a row: [0] for a discarded slide, [N/A]
    ([None]) for an audio-only one, the word count of the on-screen text
    otherwise. *)
Definition wordCountCell (slide : Slide) : option Q :=
  if negb (is_active slide) then Some 0
  else match selectedSource slide with
       | AUDIO => None
       | _ => Some (inject_Z (Z.of_nat (getWordCount (ost slide))))
       end.

(** The number shown (with [toFixed(2)]) in the [AV Mins] cell of a row. *)
Definition avMinsCell (slide : Slide) : Q :=
  if negb (is_active slide) then 0
  else match selectedSource slide with
       | OST => 0
       | _ => audioDuration slide
       end.

Definition cell_number (c : option Q) : Q :=
  match c with Some q => q | None => 0 end.

(** ** Sample inputs *)

Definition sample_slide (i : Z) (text : jsstring) (src : SourceType) (dur : Q)
    (fin : bool) (disc : option bool) : Slide :=
  {| id := i; ost := text; transcript := []; selectedSource := src;
     audioDuration := dur; isFinalized := fin; audioMeta := manual_meta;
     isDiscarded := disc; discardReason := None; discardNote := None;
     discardedAt := None; discardedBy := None; undoAt := None;
     undoBy := None |}.

(** ** Spec-side notions *)

(** Sum of a list of numbers. *)
Definition sumQ (l : list Q) : Q := fold_right Qplus 0 l.

(** The contribution of one active slide as the specification tabulates it:
    words, then minutes. *)
Definition word_contribution (slide : Slide) : Q :=
  match selectedSource slide with
  | OST | BOTH => inject_Z (Z.of_nat (getWordCount (ost slide)))
  | AUDIO => 0
  end.

Definition time_contribution (slide : Slide) : Q :=
  match selectedSource slide with
  | OST => 0
  | AUDIO | BOTH => audioDuration slide
  end.

(** Number of maximal runs of non-whitespace characters; [inword] says the
    previous character belongs to a run. *)
Fixpoint count_runs_aux (inword : bool) (s : jsstring) : nat :=
  match s with
  | [] => 0
  | c :: r =>
      if is_ws c then count_runs_aux false r
      else ((if inword then 0 else 1) + count_runs_aux true r)%nat
  end.

Definition count_runs (s : jsstring) : nat := count_runs_aux false s.

(** A slide as the importers create it: an unfinalized, undiscarded
    on-screen-text draft with no audio and a positive id. *)
Definition fresh_draft (s : Slide) : Prop :=
  selectedSource s = OST /\ audioDuration s = 0 /\ isFinalized s = false /\
  isDiscarded s = Some false /\ audioMeta s = manual_meta /\ (0 < id s)%Z.

(** The positive numbers read from a list of slide-number cells, in order. *)
Definition positive_ids {A} (read : A -> option Z) (rows : list A) : list Z :=
  flat_map (fun r => match read r with
                     | Some z => if (0 <? z)%Z then [z] else []
                     | None => []
                     end) rows.

(** A slide with some on-screen text or transcript after trimming. *)
Definition has_content (s : Slide) : Prop :=
  trim (ost s) <> [] \/ trim (transcript s) <> [].

Definition xlsx_numbered : list (list cell) :=
  [[Some (js "Slide No"); Some (js "On-Screen Text"); Some (js "Audio")];
   [Some (js "3"); Some (js "Intro"); None];
   [Some (js "x"); Some (js "Skipped"); None];
   [Some (js " 7 "); None; Some (js "Narration")]].

Definition xlsx_unnumbered : list (list cell) :=
  [[Some (js "OST"); Some (js "Transcript")];
   [Some (js "Intro"); None];
   [Some (js "  "); None];
   [None; Some (js "Narration")]].

Definition csv_header2 : list jsstring := [js "OST"; js "Transcript"].

Definition csv_data2 : list csv_row :=
  [[(js "OST", js "Intro"); (js "Transcript", [])];
   [(js "OST", js " "); (js "Transcript", [])];
   [(js "OST", []); (js "Transcript", js "Narration")]].

Definition csv_header3 : list jsstring := [js "slide number"; js "OST"].

Definition csv_data3 : list csv_row :=
  [[(js "slide number", js "12"); (js "OST", js "Intro")];
   [(js "slide number", js "-1"); (js "OST", js "Dropped")];
   [(js "slide number", js "4"); (js "OST", [])]].

(** The browser's HTML escaping of one character, as [escapeHtml] is meant
    to perform it. *)
Definition escape_char (x : ascii) : jsstring :=
  if ascii_dec x "&"%char then js "&amp;"
  else if ascii_dec x "<"%char then js "&lt;"
  else if ascii_dec x ">"%char then js "&gt;"
  else if ascii_dec x dquote then js "&quot;"
  else if ascii_dec x squote then js "&#039;"
  else [x].

(** * Proofs *)

Ltac qconst :=
  unfold Qdiv in *;
  try change (/ 2) with (1 # 2) in *;
  try change (/ 60) with (1 # 60) in *;
  try change (/ 180) with (1 # 180) in *.

Lemma js_gt_true (x y : Q) : js_gt x y = true -> y < x.
Proof.
  unfold js_gt. intro H. apply negb_true_iff in H.
  apply Qnot_le_lt. intro Hle. apply Qle_bool_iff in Hle. congruence.
Qed.

Lemma js_gt_false (x y : Q) : js_gt x y = false -> x <= y.
Proof.
  unfold js_gt. intro H. apply negb_false_iff in H. now apply Qle_bool_iff.
Qed.

Lemma rounded_is_round_half (slides : list Slide) (r f : jsnum) :
  roundedCpe (useCpeCalculator slides r f)
  = round_half (rawCpeHours (useCpeCalculator slides r f)).
Proof. reflexivity. Qed.

Lemma raw_of_totals (slides : list Slide) (r f : jsnum) :
  let m := useCpeCalculator slides r f in
  rawCpeHours m
  = (totalWords m / 180 + totalAvMinutes m + totalQuestions m * (185 # 100)) / 60.
Proof. reflexivity. Qed.

Lemma round_half_nonneg (x : Q) : 0 <= round_half x.
Proof.
  unfold round_half. destruct (js_gt _ 0) eqn:E.
  - apply Qlt_le_weak. now apply js_gt_true in E.
  - apply Qle_refl.
Qed.

Lemma round_half_le (x : Q) : 0 <= x -> round_half x <= x.
Proof.
  intro Hx. unfold round_half, math_floor.
  pose proof (Qfloor_le (x * 2)) as Hf.
  destruct (js_gt _ 0); qconst; lra.
Qed.

Lemma round_half_gt (x : Q) : x < round_half x + (1 # 2).
Proof.
  unfold round_half, math_floor.
  pose proof (Qlt_floor (x * 2)) as Hf.
  rewrite inject_Z_plus in Hf. change (inject_Z 1) with 1 in Hf.
  destruct (js_gt _ 0) eqn:E.
  - qconst; lra.
  - apply js_gt_false in E. qconst; lra.
Qed.

Lemma round_half_mono (x y : Q) : x <= y -> round_half x <= round_half y.
Proof.
  intro Hxy. unfold round_half, math_floor.
  assert (Hz : inject_Z (Qfloor (x * 2)) <= inject_Z (Qfloor (y * 2))).
  { rewrite <- Zle_Qle. apply Qfloor_resp_le. lra. }
  destruct (js_gt (inject_Z (Qfloor (x * 2)) / 2) 0) eqn:E1;
  destruct (js_gt (inject_Z (Qfloor (y * 2)) / 2) 0) eqn:E2;
  try apply js_gt_true in E1; try apply js_gt_true in E2;
  try apply js_gt_false in E1; try apply js_gt_false in E2;
  qconst; lra.
Qed.

Lemma round_half_max (x : Q) :
  round_half x == Qmax 0 (math_floor (x * 2) / 2).
Proof.
  unfold round_half. destruct (js_gt _ 0) eqn:E.
  - apply js_gt_true in E. rewrite Q.max_r; [reflexivity | lra].
  - apply js_gt_false in E. rewrite Q.max_l; [reflexivity | lra].
Qed.

Lemma round_half_multiple (x : Q) :
  exists k : Z, (0 <= k)%Z /\ round_half x == inject_Z k / 2.
Proof.
  unfold round_half, math_floor. destruct (js_gt _ 0) eqn:E.
  - apply js_gt_true in E. exists (Qfloor (x * 2)). split; [|reflexivity].
    rewrite Zle_Qle. change (inject_Z 0) with 0. qconst. lra.
  - exists 0%Z. split; [lia | reflexivity].
Qed.

(** ** C1 *)

(** C1: the engine computes [rawCpeHours] as the sum of the three minute
    contributions over 60 and [roundedCpe] as [floor(rawCpeHours * 2) / 2]
    clamped at 0, which is at most [rawCpeHours] when that is non-negative
    and within half an hour of it; 1.74 and 1.75 round to 1.5, 2.0 to 2.0. *)
Theorem useCpeCalculator_rounding :
  forall (slides : list Slide) (reviewQuestions finalExamQuestions : jsnum),
  let m := useCpeCalculator slides reviewQuestions finalExamQuestions in
  wordsCpe m = totalWords m / 180 /\
  avCpe m = totalAvMinutes m /\
  questionsCpe m = totalQuestions m * (185 # 100) /\
  rawCpeHours m = (wordsCpe m + avCpe m + questionsCpe m) / 60 /\
  roundedCpe m = round_half (rawCpeHours m) /\
  roundedCpe m == Qmax 0 (math_floor (rawCpeHours m * 2) / 2) /\
  (0 <= rawCpeHours m -> roundedCpe m <= rawCpeHours m) /\
  rawCpeHours m < roundedCpe m + (1 # 2) /\
  round_half (174 # 100) == 3 # 2 /\
  round_half (175 # 100) == 3 # 2 /\
  round_half 2 == 2.
Proof.
  intros slides r f m.
  assert (Hr : roundedCpe m = round_half (rawCpeHours m))
    by apply rounded_is_round_half.
  rewrite Hr.
  repeat split; try reflexivity.
  - apply round_half_max.
  - apply round_half_le.
  - apply round_half_gt.
Qed.

Lemma useCpeCalculator_rounding_witness :
  0 <= rawCpeHours (useCpeCalculator [] JNaN JNaN) /\
  roundedCpe (useCpeCalculator [sample_slide 1 [] AUDIO (522 # 5) true None]
                (JNum 0) JNaN)
  <= rawCpeHours (useCpeCalculator [sample_slide 1 [] AUDIO (522 # 5) true None]
                    (JNum 0) JNaN).
Proof.
  split.
  - apply Qle_bool_iff. vm_compute. reflexivity.
  - apply (useCpeCalculator_rounding
             [sample_slide 1 [] AUDIO (522 # 5) true None] (JNum 0) JNaN).
    apply Qle_bool_iff. vm_compute. reflexivity.
Defined.

(** ** C10 *)

(** C10: for every input, [roundedCpe] is non-negative and a whole number
    of half hours. *)
Theorem roundedCpe_nonneg_half_multiple :
  forall (slides : list Slide) (reviewQuestions finalExamQuestions : jsnum),
  let m := useCpeCalculator slides reviewQuestions finalExamQuestions in
  0 <= roundedCpe m /\
  exists k : Z, (0 <= k)%Z /\ roundedCpe m == inject_Z k / 2.
Proof.
  intros slides r f m.
  assert (Hr : roundedCpe m = round_half (rawCpeHours m))
    by apply rounded_is_round_half.
  rewrite Hr. split; [apply round_half_nonneg | apply round_half_multiple].
Qed.

(** ** C2 *)

Lemma filter_idem {A} (p : A -> bool) (l : list A) :
  filter p (filter p l) = filter p l.
Proof.
  induction l as [|x l IH]; simpl; [reflexivity|].
  destruct (p x) eqn:E; simpl; [rewrite E, IH | rewrite IH]; reflexivity.
Qed.

(** C2: discarded slides contribute nothing: the metrics of a collection
    are those of its non-discarded sub-collection, and inserting a
    discarded slide, whatever its contents, anywhere changes no metric. *)
Theorem discarded_slides_contribute_nothing :
  forall (slides : list Slide) (reviewQuestions finalExamQuestions : jsnum),
  useCpeCalculator slides reviewQuestions finalExamQuestions
  = useCpeCalculator (filter is_active slides) reviewQuestions finalExamQuestions
  /\
  (forall (pre post : list Slide) (d : Slide),
     isDiscarded d = Some true ->
     useCpeCalculator (pre ++ d :: post) reviewQuestions finalExamQuestions
     = useCpeCalculator (pre ++ post) reviewQuestions finalExamQuestions).
Proof.
  intros slides r f. split.
  - unfold useCpeCalculator. rewrite filter_idem. reflexivity.
  - intros pre post d Hd.
    assert (Hd' : is_active d = false) by (unfold is_active; now rewrite Hd).
    unfold useCpeCalculator. rewrite !filter_app. simpl. rewrite Hd'.
    reflexivity.
Qed.

Lemma discarded_slides_contribute_nothing_witness :
  isDiscarded (sample_slide 2 (js "lots of words") BOTH 30 true (Some true))
    = Some true /\
  useCpeCalculator
    ([sample_slide 1 (js "a b") OST 0 true None]
     ++ sample_slide 2 (js "lots of words") BOTH 30 true (Some true)
        :: [sample_slide 3 [] AUDIO 5 false (Some false)]) (JNum 2) JNaN
  = useCpeCalculator
      ([sample_slide 1 (js "a b") OST 0 true None]
       ++ [sample_slide 3 [] AUDIO 5 false (Some false)]) (JNum 2) JNaN.
Proof.
  split; [reflexivity|].
  apply (proj2 (discarded_slides_contribute_nothing [] (JNum 2) JNaN)).
  reflexivity.
Defined.

(** ** C6 *)

Lemma or_zero_value (q : Q) : or_zero (JNum q) == q.
Proof.
  unfold or_zero. destruct (Qeq_bool q 0) eqn:E; [|reflexivity].
  apply Qeq_bool_iff in E. now rewrite E.
Qed.

(** C6 (counterexample): a negative review count is not treated as 0:
    [-3] review questions and [0] final-exam questions give
    [totalQuestions = -3]. *)
Lemma totalQuestions_negative_kept :
  totalQuestions (useCpeCalculator [] (JNum (-3)) (JNum 0)) == -3 /\
  ~ totalQuestions (useCpeCalculator [] (JNum (-3)) (JNum 0)) == 0 + 0.
Proof.
  split.
  - apply Qeq_bool_iff. vm_compute. reflexivity.
  - intro H. apply Qeq_bool_iff in H. vm_compute in H. discriminate.
Qed.

(** C6 (amended): [totalQuestions] is [(review || 0) + (finalExam || 0)]:
    a NaN count counts as 0, every other count (negative ones included)
    is added as it is; [questionsCpe] is [totalQuestions * 1.85]. *)
Theorem totalQuestions_or_zero :
  forall (slides : list Slide) (reviewQuestions finalExamQuestions : jsnum),
  let m := useCpeCalculator slides reviewQuestions finalExamQuestions in
  totalQuestions m = or_zero reviewQuestions + or_zero finalExamQuestions /\
  questionsCpe m = totalQuestions m * (185 # 100) /\
  or_zero JNaN = 0 /\
  (forall q : Q, or_zero (JNum q) == q).
Proof.
  intros slides r f m. repeat split; try reflexivity.
  intro q. apply or_zero_value.
Qed.

(** ** C7 *)

(** C7: [roundedCpe] does not decrease when one of [totalWords],
    [totalAvMinutes], [totalQuestions] grows and the other two stay. *)
Theorem roundedCpe_monotone :
  forall (slides1 slides2 : list Slide) (r1 f1 r2 f2 : jsnum),
  let m1 := useCpeCalculator slides1 r1 f1 in
  let m2 := useCpeCalculator slides2 r2 f2 in
  (totalWords m1 <= totalWords m2 /\ totalAvMinutes m1 == totalAvMinutes m2
   /\ totalQuestions m1 == totalQuestions m2)
  \/ (totalWords m1 == totalWords m2 /\ totalAvMinutes m1 <= totalAvMinutes m2
      /\ totalQuestions m1 == totalQuestions m2)
  \/ (totalWords m1 == totalWords m2 /\ totalAvMinutes m1 == totalAvMinutes m2
      /\ totalQuestions m1 <= totalQuestions m2) ->
  roundedCpe m1 <= roundedCpe m2.
Proof.
  intros s1 s2 r1 f1 r2 f2 m1 m2 H.
  assert (H1 : roundedCpe m1 = round_half (rawCpeHours m1))
    by apply rounded_is_round_half.
  assert (H2 : roundedCpe m2 = round_half (rawCpeHours m2))
    by apply rounded_is_round_half.
  assert (R1 : rawCpeHours m1 = (totalWords m1 / 180 + totalAvMinutes m1
                                 + totalQuestions m1 * (185 # 100)) / 60)
    by apply raw_of_totals.
  assert (R2 : rawCpeHours m2 = (totalWords m2 / 180 + totalAvMinutes m2
                                 + totalQuestions m2 * (185 # 100)) / 60)
    by apply raw_of_totals.
  rewrite H1, H2. apply round_half_mono. rewrite R1, R2. qconst. lra.
Qed.

Lemma roundedCpe_monotone_witness :
  let m1 := useCpeCalculator [] JNaN JNaN in
  let m2 := useCpeCalculator [sample_slide 1 (js "a b") OST 0 true None]
              JNaN JNaN in
  (totalWords m1 <= totalWords m2 /\ totalAvMinutes m1 == totalAvMinutes m2
   /\ totalQuestions m1 == totalQuestions m2) /\
  roundedCpe m1 <= roundedCpe m2.
Proof.
  intros m1 m2.
  assert (Hyp : totalWords m1 <= totalWords m2
                /\ totalAvMinutes m1 == totalAvMinutes m2
                /\ totalQuestions m1 == totalQuestions m2).
  { split; [|split].
    - apply Qle_bool_iff. vm_compute. reflexivity.
    - apply Qeq_bool_iff. vm_compute. reflexivity.
    - apply Qeq_bool_iff. vm_compute. reflexivity. }
  split; [exact Hyp|].
  apply (roundedCpe_monotone [] [sample_slide 1 (js "a b") OST 0 true None]
           JNaN JNaN JNaN JNaN).
  left. exact Hyp.
Defined.

(** ** C3 *)

Lemma truthy_snoc (cur : jsstring) (c : ascii) : truthy_str (cur ++ [c]) = true.
Proof. destruct cur; reflexivity. Qed.

(** Splitting on whitespace runs and dropping empty tokens counts the
    maximal runs of non-whitespace characters. *)
Lemma split_ws_aux_count (s cur : jsstring) (in_sep : bool) :
  (in_sep = true -> cur = []) ->
  List.length (filter truthy_str (split_ws_aux cur in_sep s))
  = ((if truthy_str cur then 1 else 0)
     + count_runs_aux (truthy_str cur) s)%nat.
Proof.
  revert cur in_sep.
  induction s as [|c r IH]; intros cur in_sep Hinv; simpl.
  - destruct (truthy_str cur); simpl; lia.
  - destruct (is_ws c) eqn:Ec.
    + destruct in_sep.
      * rewrite (Hinv eq_refl). simpl. rewrite IH by reflexivity. reflexivity.
      * simpl. destruct (truthy_str cur); simpl;
          rewrite IH by reflexivity; simpl; lia.
    + rewrite IH by discriminate. rewrite truthy_snoc.
      destruct (truthy_str cur); simpl; lia.
Qed.

Lemma split_ws_count (s : jsstring) :
  List.length (filter truthy_str (split_ws s)) = count_runs s.
Proof.
  unfold split_ws, count_runs. rewrite split_ws_aux_count by discriminate.
  reflexivity.
Qed.

Lemma count_runs_ws_prefix (p s : jsstring) (inword : bool) :
  forallb is_ws p = true -> p <> [] ->
  count_runs_aux inword (p ++ s) = count_runs_aux false s.
Proof.
  revert inword. induction p as [|c p IH]; intros inword Hp Hne;
    [contradiction|].
  simpl in Hp |- *. apply andb_true_iff in Hp as [Hc Hp]. rewrite Hc.
  destruct p as [|c' p']; [reflexivity|]. apply IH; [exact Hp|discriminate].
Qed.

Lemma count_runs_ws_prefix' (p s : jsstring) :
  forallb is_ws p = true ->
  count_runs_aux false (p ++ s) = count_runs_aux false s.
Proof.
  intro Hp. destruct p as [|c p]; [reflexivity|].
  apply count_runs_ws_prefix; [exact Hp|discriminate].
Qed.

Lemma count_runs_all_ws (t : jsstring) (inword : bool) :
  forallb is_ws t = true -> count_runs_aux inword t = 0%nat.
Proof.
  revert inword. induction t as [|c t IH]; intros inword Ht; [reflexivity|].
  simpl in Ht |- *. apply andb_true_iff in Ht as [Hc Ht]. rewrite Hc.
  now apply IH.
Qed.

Lemma count_runs_ws_suffix (s t : jsstring) (inword : bool) :
  forallb is_ws t = true ->
  count_runs_aux inword (s ++ t) = count_runs_aux inword s.
Proof.
  revert inword. induction s as [|c s IH]; intros inword Ht; simpl.
  - now apply count_runs_all_ws.
  - destruct (is_ws c); rewrite IH by exact Ht; reflexivity.
Qed.

Lemma trim_start_split (s : jsstring) :
  exists p, s = p ++ trim_start s /\ forallb is_ws p = true.
Proof.
  induction s as [|c r [p [Hp Hw]]]; [exists []; split; reflexivity|].
  simpl. destruct (is_ws c) eqn:Ec.
  - exists (c :: p). simpl. rewrite Ec, Hw. split; [now rewrite <- Hp|reflexivity].
  - exists []. split; reflexivity.
Qed.

Lemma forallb_rev {A} (f : A -> bool) (l : list A) :
  forallb f (rev l) = forallb f l.
Proof.
  induction l as [|x l IH]; simpl; [reflexivity|].
  rewrite forallb_app, IH. simpl. rewrite andb_true_r, andb_comm. reflexivity.
Qed.

Lemma count_runs_trim (s : jsstring) : count_runs (trim s) = count_runs s.
Proof.
  unfold count_runs, trim.
  set (u := trim_start s).
  destruct (trim_start_split (rev u)) as [p [Hp Hw]].
  assert (Hu : u = rev (trim_start (rev u)) ++ rev p).
  { rewrite <- rev_app_distr, <- Hp, rev_involutive. reflexivity. }
  transitivity (count_runs_aux false u).
  - rewrite Hu at 2. rewrite count_runs_ws_suffix; [reflexivity|].
    now rewrite forallb_rev.
  - destruct (trim_start_split s) as [q [Hq Hwq]]. subst u.
    rewrite Hq at 2. now rewrite count_runs_ws_prefix'.
Qed.

(** [getWordCount] counts the maximal runs of non-whitespace characters. *)
Lemma getWordCount_runs (s : jsstring) : getWordCount s = count_runs s.
Proof.
  unfold getWordCount. rewrite split_ws_count. apply count_runs_trim.
Qed.

Lemma totals_fold (l : list Slide) (acc : Totals) :
  acc_totalWords (fold_left reduce_step l acc)
    == acc_totalWords acc + sumQ (map word_contribution l) /\
  acc_totalAvMinutes (fold_left reduce_step l acc)
    == acc_totalAvMinutes acc + sumQ (map time_contribution l).
Proof.
  revert acc. induction l as [|x l IH]; intro acc; simpl.
  - split; lra.
  - destruct (IH (reduce_step acc x)) as [Hw Ha]. rewrite Hw, Ha.
    unfold reduce_step, word_contribution, time_contribution.
    destruct (selectedSource x); simpl; split; lra.
Qed.

(** C3: an active slide contributes [wordCount(onScreenText)] words and no
    minutes when [OST], no words and its duration when [AUDIO], both when
    [BOTH]; [getWordCount] splits on whitespace runs, drops empty tokens
    and counts the rest, so surrounding whitespace is ignored and a blank
    text counts 0. *)
Theorem slide_contributions :
  forall (slides : list Slide) (reviewQuestions finalExamQuestions : jsnum),
  let m := useCpeCalculator slides reviewQuestions finalExamQuestions in
  totalWords m == sumQ (map word_contribution (filter is_active slides)) /\
  totalAvMinutes m == sumQ (map time_contribution (filter is_active slides)) /\
  (forall s : jsstring,
     getWordCount s = List.length (filter truthy_str (split_ws s)) /\
     getWordCount s = count_runs s) /\
  (forall p s q : jsstring,
     forallb is_ws p = true -> forallb is_ws q = true ->
     getWordCount (p ++ s ++ q) = getWordCount s) /\
  (forall s : jsstring, forallb is_ws s = true -> getWordCount s = 0%nat).
Proof.
  intros slides r f m.
  destruct (totals_fold (filter is_active slides) totals0) as [Hw Ha].
  split; [|split; [|split; [|split]]].
  - unfold m, useCpeCalculator. simpl. rewrite Hw. simpl. lra.
  - unfold m, useCpeCalculator. simpl. rewrite Ha. simpl. lra.
  - intro s. rewrite split_ws_count. split; apply getWordCount_runs.
  - intros p s q Hp Hq. rewrite !getWordCount_runs. unfold count_runs.
    rewrite count_runs_ws_prefix' by exact Hp.
    now rewrite count_runs_ws_suffix.
  - intros s Hs. rewrite getWordCount_runs. now apply count_runs_all_ws.
Qed.

Lemma slide_contributions_witness :
  (forallb is_ws (js "  ") = true /\ forallb is_ws (js " ") = true /\
   getWordCount (js "  " ++ js "two words" ++ js " ")
   = getWordCount (js "two words")) /\
  (forallb is_ws (js " 	 ") = true /\ getWordCount (js " 	 ") = 0%nat).
Proof.
  destruct (slide_contributions [] JNaN JNaN) as [_ [_ [_ [H4 H5]]]].
  split.
  - split; [reflexivity|split; [reflexivity|]]. apply H4; reflexivity.
  - split; [reflexivity|]. apply H5. reflexivity.
Defined.

(** ** C4 *)

(** C4: finalizing a draft whose source is [AUDIO] or [BOTH] with duration
    0 fails: only the error message is set and no slide is emitted; once
    the duration is set to a positive value the same finalize succeeds and
    emits the slide with the current text, transcript, source, duration and
    audio metadata, finalized. *)
Theorem finalize_guard :
  forall st : EditorState,
  ed_isFinalized st = false ->
  (ed_selectedSource st = AUDIO \/ ed_selectedSource st = BOTH) ->
  ed_audioDuration st == 0 ->
  (let o := handleFinalize st in
   out_result o = false /\ out_update o = None /\
   out_state o = set_finalizeError st (Some finalizeErrorMsg)) /\
  (forall d : Q, 0 < d ->
   let o := handleFinalize (set_audioDuration st d) in
   out_result o = true /\ ed_isFinalized (out_state o) = true /\
   exists s : Slide, out_update o = Some s /\
     isFinalized s = true /\ ost s = ed_ost st /\
     transcript s = ed_transcript st /\
     selectedSource s = ed_selectedSource st /\ audioDuration s = d /\
     audioMeta s = ed_audioMeta st /\ id s = id (ed_slide st)).
Proof.
  intros st Hfin Hsrc Hdur.
  assert (Hsrc' : is_audio_or_both (ed_selectedSource st) = true)
    by (destruct Hsrc as [H|H]; rewrite H; reflexivity).
  split.
  - unfold handleFinalize. rewrite Hfin, Hsrc'.
    assert (Hq : Qeq_bool (ed_audioDuration st) 0 = true)
      by now apply Qeq_bool_iff.
    rewrite Hq. repeat split.
  - intros d Hd. unfold handleFinalize. simpl. rewrite Hfin, Hsrc'.
    assert (Hq : Qeq_bool d 0 = false).
    { apply not_true_iff_false. intro H. apply Qeq_bool_iff in H. lra. }
    rewrite Hq. simpl. repeat split.
    eexists. repeat split.
Qed.

Lemma finalize_guard_witness :
  let st := mount (sample_slide 1 (js "text") AUDIO 0 false None)
              (JNum 0) (JNum 0) in
  (ed_isFinalized st = false /\
   (ed_selectedSource st = AUDIO \/ ed_selectedSource st = BOTH) /\
   ed_audioDuration st == 0) /\
  0 < 3 /\
  out_result (handleFinalize (set_audioDuration st 3)) = true.
Proof.
  intro st.
  assert (H1 : ed_isFinalized st = false) by reflexivity.
  assert (H2 : ed_selectedSource st = AUDIO \/ ed_selectedSource st = BOTH)
    by (left; reflexivity).
  assert (H3 : ed_audioDuration st == 0)
    by (apply Qeq_bool_iff; vm_compute; reflexivity).
  assert (H4 : 0 < 3) by (vm_compute; reflexivity).
  split; [split; [exact H1 | split; [exact H2 | exact H3]]|].
  split; [exact H4|].
  apply (proj2 (finalize_guard st H1 H2 H3) 3 H4).
Defined.

(** ** C5 *)

Definition finalized_sample : Slide := sample_slide 7 (js "intro") OST 0 true None.

(** C5 (counterexample): a finalized slide discarded with reason [Other]
    and then un-discarded comes back finalized, with its discard reason. *)
Lemma undo_discard_keeps_finalized :
  let st := set_discard_choice (mount finalized_sample (JNum 0) (JNum 0))
              (js "Other") [] in
  match out_update (handleDiscardConfirm st (js "t1")) with
  | Some d =>
      match out_update (handleUndoDiscard (mount d (JNum 0) (JNum 0)) (js "t2"))
      with
      | Some u =>
          is_active u = true /\ isFinalized u = true /\
          discardReason u = Some (js "Other") /\
          ~ (isFinalized u = false /\ discardReason u = None)
      | None => False
      end
  | None => False
  end.
Proof.
  simpl. split; [reflexivity|]. split; [reflexivity|]. split; [reflexivity|].
  intros [H _]. discriminate.
Qed.

(** C5 (amended): undo discard always succeeds and emits
    [{ ...slide, isDiscarded: false, undoAt: now, undoBy: 'user' }]: every
    other field, [isFinalized], [discardReason] and [discardNote] included,
    is kept; so a slide discarded from a mounted editor comes back with the
    [isFinalized] it had when it was discarded. *)
Theorem undo_discard_keeps_fields :
  forall (st : EditorState) (now : jsstring),
  let slide := ed_slide st in
  let o := handleUndoDiscard st now in
  out_result o = true /\
  (exists u : Slide, out_update o = Some u /\
     isDiscarded u = Some false /\ is_active u = true /\
     undoAt u = Some now /\ undoBy u = Some (js "user") /\
     isFinalized u = isFinalized slide /\
     discardReason u = discardReason slide /\
     discardNote u = discardNote slide /\
     discardedAt u = discardedAt slide /\ discardedBy u = discardedBy slide /\
     id u = id slide /\ ost u = ost slide /\ transcript u = transcript slide /\
     selectedSource u = selectedSource slide /\
     audioDuration u = audioDuration slide /\ audioMeta u = audioMeta slide) /\
  (forall (now0 : jsstring) (d : Slide) (mi se : jsnum),
     out_update (handleDiscardConfirm st now0) = Some d ->
     exists u : Slide,
       out_update (handleUndoDiscard (mount d mi se) now) = Some u /\
       isFinalized u = isFinalized slide /\ is_active u = true).
Proof.
  intros st now slide o. split; [reflexivity|]. split.
  - eexists. repeat split.
  - intros now0 d mi se Hd. unfold handleDiscardConfirm in Hd.
    destruct (ed_discardReason st) as [|c r]; [discriminate|].
    injection Hd as <-. eexists. repeat split.
Qed.

Lemma undo_discard_keeps_fields_witness :
  let st := set_discard_choice (mount finalized_sample (JNum 0) (JNum 0))
              (js "Other") [] in
  out_update (handleDiscardConfirm st (js "t1"))
  = Some (match out_update (handleDiscardConfirm st (js "t1")) with
          | Some d => d | None => finalized_sample end) /\
  exists u : Slide,
    out_update (handleUndoDiscard
                  (mount (match out_update (handleDiscardConfirm st (js "t1")) with
                          | Some d => d | None => finalized_sample end)
                     JNaN JNaN) (js "t2")) = Some u /\
    isFinalized u = isFinalized (ed_slide st) /\ is_active u = true.
Proof.
  intro st.
  assert (Hd : out_update (handleDiscardConfirm st (js "t1"))
               = Some (match out_update (handleDiscardConfirm st (js "t1")) with
                       | Some d => d | None => finalized_sample end))
    by reflexivity.
  split; [exact Hd|].
  exact (proj2 (proj2 (undo_discard_keeps_fields st (js "t2")))
           (js "t1") _ JNaN JNaN Hd).
Defined.

(** ** C8 *)

(** C8: discarding with an empty reason is refused and changes nothing;
    with any reason, whether the slide is a draft or finalized, it emits the
    slide discarded with that reason; reason [Other] with no note
    succeeds. *)
Theorem discard_requires_reason :
  forall (st : EditorState) (now : jsstring),
  let o := handleDiscardConfirm st now in
  (ed_discardReason st = [] -> out_update o = None /\ out_state o = st) /\
  (ed_discardReason st <> [] ->
   exists d : Slide, out_update o = Some d /\ isDiscarded d = Some true /\
     discardReason d = Some (ed_discardReason st) /\
     isFinalized d = isFinalized (ed_slide st) /\
     ed_isDiscardModalOpen (out_state o) = false) /\
  (ed_discardReason st = js "Other" -> ed_discardNote st = [] ->
   exists d : Slide, out_update o = Some d /\ isDiscarded d = Some true /\
     discardReason d = Some (js "Other") /\ discardNote d = Some []).
Proof.
  intros st now o. unfold o, handleDiscardConfirm.
  split; [|split].
  - intro H. rewrite H. split; reflexivity.
  - intro H. destruct (ed_discardReason st) as [|c r]; [contradiction|].
    eexists. repeat split.
  - intros H Hn. rewrite H. simpl. rewrite Hn.
    eexists. split; [reflexivity|]. repeat split.
Qed.

Definition draft_sample : Slide := sample_slide 3 (js "body") BOTH 2 false None.

Lemma discard_requires_reason_witness :
  (ed_discardReason (mount draft_sample JNaN JNaN) = [] /\
   out_update (handleDiscardConfirm (mount draft_sample JNaN JNaN) (js "t"))
   = None) /\
  (let st := set_discard_choice (mount finalized_sample JNaN JNaN)
               (js "Other") [] in
   ed_discardReason st = js "Other" /\ ed_discardNote st = [] /\
   exists d : Slide, out_update (handleDiscardConfirm st (js "t")) = Some d /\
     isDiscarded d = Some true /\ discardReason d = Some (js "Other") /\
     discardNote d = Some []).
Proof.
  split.
  - assert (H : ed_discardReason (mount draft_sample JNaN JNaN) = [])
      by reflexivity.
    split; [exact H|].
    exact (proj1 (proj1 (discard_requires_reason
                           (mount draft_sample JNaN JNaN) (js "t")) H)).
  - intro st.
    assert (H1 : ed_discardReason st = js "Other") by reflexivity.
    assert (H2 : ed_discardNote st = []) by reflexivity.
    split; [exact H1|]. split; [exact H2|].
    exact (proj2 (proj2 (discard_requires_reason st (js "t"))) H1 H2).
Defined.

(** ** C9 *)

Definition xlsx_with_unnumbered_row : list (list cell) :=
  [[Some (js "Slide #"); Some (js "OST")];
   [None; Some (js "Hello world")]].

Definition csv_unnumbered_header : list jsstring := [js "Slide #"; js "OST"].

Definition csv_unnumbered_data : list csv_row :=
  [[(js "Slide #", []); (js "OST", js "Hello world")]].

(** C9 (code evaluated at the failing input): with a slide-number column, a
    row whose number cell is empty but whose on-screen text is not is
    dropped, by both parsers, instead of being kept with the sequential
    id 1. *)
Theorem parsers_drop_unnumbered_content_row :
  parseXlsx xlsx_with_unnumbered_row = inr [] /\
  parseXlsx xlsx_with_unnumbered_row
    <> inr [createSlideObject 1 (js "Hello world") []] /\
  parseCsv csv_unnumbered_header csv_unnumbered_data = inr [] /\
  parseCsv csv_unnumbered_header csv_unnumbered_data
    <> inr [createSlideObject 1 (js "Hello world") []].
Proof.
  split; [vm_compute; reflexivity|].
  split; [vm_compute; discriminate|].
  split; [vm_compute; reflexivity|].
  vm_compute; discriminate.
Qed.

(** * Further properties of the code *)

(** ** Export service *)

Lemma Qle_bool_proper (x x' y y' : Q) :
  x == x' -> y == y' -> Qle_bool x y = Qle_bool x' y'.
Proof.
  intros Hx Hy. destruct (Qle_bool x y) eqn:E.
  - symmetry. apply Qle_bool_iff. apply Qle_bool_iff in E.
    rewrite <- Hx, <- Hy. exact E.
  - symmetry. apply not_true_iff_false. intro C. apply Qle_bool_iff in C.
    rewrite <- Hx, <- Hy in C. apply Qle_bool_iff in C. congruence.
Qed.

Lemma js_trunc_proper (x y : Q) : x == y -> js_trunc x = js_trunc y.
Proof.
  intro H. unfold js_trunc. rewrite (Qle_bool_proper 0 0 x y) by (reflexivity || exact H).
  destruct (Qle_bool 0 y).
  - now apply Qfloor_comp.
  - f_equal. apply Qfloor_comp. now rewrite H.
Qed.

Lemma js_mod_proper (x y : Q) (d : Q) : x == y -> js_mod x d == js_mod y d.
Proof.
  intro H. unfold js_mod.
  rewrite (js_trunc_proper (x / d) (y / d)) by (rewrite H; reflexivity).
  rewrite H. reflexivity.
Qed.

Lemma js_round_proper (x y : Q) : x == y -> js_round x = js_round y.
Proof. intro H. unfold js_round. apply Qfloor_comp. now rewrite H. Qed.

Lemma formatDurationForAudioExport_proper (x y : Q) :
  x == y -> formatDurationForAudioExport x = formatDurationForAudioExport y.
Proof.
  intro H. unfold formatDurationForAudioExport, js_gt.
  rewrite (Qle_bool_proper 0 0 x y) by (reflexivity || exact H).
  rewrite (Qfloor_comp (x * 60 / 60) (y * 60 / 60)) by (rewrite H; reflexivity).
  rewrite (js_round_proper (js_mod (x * 60) 60) (js_mod (y * 60) 60))
    by (apply js_mod_proper; rewrite H; reflexivity).
  reflexivity.
Qed.

Lemma fold_sum {A} (g : A -> Q) (l : list A) (a : Q) :
  fold_left (fun sum x => sum + g x) l a == a + sumQ (map g l).
Proof.
  revert a. induction l as [|x l IH]; intro a; simpl; [lra|].
  rewrite IH. lra.
Qed.

Lemma word_contribution_sum (l : list Slide) :
  sumQ (map word_contribution (filter is_active l))
  == sumQ (map wordCountOf (wordCountSlides l)).
Proof.
  unfold wordCountSlides. induction l as [|x l IH]; simpl; [reflexivity|].
  destruct (is_active x); simpl; [|exact IH].
  assert (Hx : word_contribution x
               == if is_ost_or_both (selectedSource x) then wordCountOf x else 0)
    by (unfold word_contribution, wordCountOf;
        destruct (selectedSource x); reflexivity).
  destruct (is_ost_or_both (selectedSource x)); simpl; rewrite Hx, IH; lra.
Qed.

Lemma time_contribution_sum (l : list Slide) :
  sumQ (map time_contribution (filter is_active l))
  == sumQ (map audioDuration (audioSlides l)).
Proof.
  unfold audioSlides. induction l as [|x l IH]; simpl; [reflexivity|].
  destruct (is_active x); simpl; [|exact IH].
  assert (Hx : time_contribution x
               == if is_audio_or_both (selectedSource x) then audioDuration x
                  else 0)
    by (unfold time_contribution; destruct (selectedSource x); reflexivity).
  destruct (is_audio_or_both (selectedSource x)); simpl; rewrite Hx, IH; lra.
Qed.

Lemma totalWords_sum (slides : list Slide) (r f : jsnum) :
  totalWords (useCpeCalculator slides r f)
  == sumQ (map word_contribution (filter is_active slides)).
Proof.
  destruct (totals_fold (filter is_active slides) totals0) as [Hw _].
  unfold useCpeCalculator. simpl. rewrite Hw. simpl. lra.
Qed.

Lemma totalAvMinutes_sum (slides : list Slide) (r f : jsnum) :
  totalAvMinutes (useCpeCalculator slides r f)
  == sumQ (map time_contribution (filter is_active slides)).
Proof.
  destruct (totals_fold (filter is_active slides) totals0) as [_ Ha].
  unfold useCpeCalculator. simpl. rewrite Ha. simpl. lra.
Qed.

(** The word count a row of the word-count export shows. *)
Definition row_words (row : list csv_value) : Q :=
  match row with _ :: VNum w :: _ => w | _ => 0 end.

(** The header row of the word-count export carries the calculator's
    [totalWords], and it is the sum of the export's word-count column. *)
Theorem exportWordCount_total :
  forall (slides : list Slide) (reviewQuestions finalExamQuestions : jsnum),
  exists t : Q,
    hd [] (exportWordCountData slides)
      = [VStr (js "Total word count:"); VNum t] /\
    t == totalWords (useCpeCalculator slides reviewQuestions finalExamQuestions) /\
    t == sumQ (map row_words (skipn 3 (exportWordCountData slides))).
Proof.
  intros slides r f. eexists. split; [reflexivity|]. split.
  - rewrite totalWords_sum, word_contribution_sum, fold_sum. lra.
  - rewrite fold_sum. simpl. rewrite map_map. simpl.
    change (fun x : Slide => wordCountOf x) with wordCountOf. lra.
Qed.

(** The header row of the audio export shows the calculator's
    [totalAvMinutes], formatted. *)
Theorem exportAudioCount_total :
  forall (slides : list Slide) (reviewQuestions finalExamQuestions : jsnum),
  hd [] (exportAudioCountData slides)
  = [VStr (js "Total AV minutes:");
     VStr (formatDurationForAudioExport
             (totalAvMinutes
                (useCpeCalculator slides reviewQuestions finalExamQuestions)))].
Proof.
  intros slides r f. unfold exportAudioCountData. cbn [hd].
  do 3 f_equal. apply formatDurationForAudioExport_proper.
  pose proof (totalAvMinutes_sum slides r f) as H1.
  pose proof (time_contribution_sum slides) as H2.
  pose proof (fold_sum audioDuration (audioSlides slides) 0) as H3.
  change (fun sum s => sum + audioDuration s) with
    (fun sum x => sum + audioDuration x).
  lra.
Qed.




Lemma Qfloor_inject_plus (z : Z) (q : Q) :
  0 <= q -> q < 1 -> Qfloor (inject_Z z + q) = z.
Proof.
  intros H0 H1.
  pose proof (Qfloor_le (inject_Z z + q)) as Hl.
  pose proof (Qlt_floor (inject_Z z + q)) as Hu.
  set (w := Qfloor (inject_Z z + q)) in *.
  rewrite inject_Z_plus in Hu. change (inject_Z 1) with 1 in Hu.
  assert (A : inject_Z w < inject_Z (z + 1))
    by (rewrite inject_Z_plus; change (inject_Z 1) with 1; lra).
  assert (B : inject_Z z < inject_Z (w + 1))
    by (rewrite inject_Z_plus; change (inject_Z 1) with 1; lra).
  rewrite <- Zlt_Qlt in A, B. lia.
Qed.

Lemma js_round_inject (z : Z) : js_round (inject_Z z) = z.
Proof.
  unfold js_round. apply Qfloor_inject_plus; vm_compute; [discriminate|reflexivity].
Qed.

Lemma Qfloor_div_pos (k : Z) (d : positive) :
  Qfloor (inject_Z k / inject_Z (Z.pos d)) = (k / Z.pos d)%Z.
Proof.
  rewrite (Qfloor_comp _ (k # d)); [reflexivity|].
  unfold Qeq, Qdiv, Qmult, Qinv, inject_Z. simpl. lia.
Qed.

Lemma js_mod_whole (k : Z) (d : positive) :
  (0 <= k)%Z ->
  js_mod (inject_Z k) (inject_Z (Z.pos d)) == inject_Z (k mod Z.pos d).
Proof.
  intro Hk. unfold js_mod, js_trunc.
  assert (Hle : Qle_bool 0 (inject_Z k / inject_Z (Z.pos d)) = true).
  { apply Qle_bool_iff.
    apply Qle_shift_div_l; [reflexivity|]. rewrite Qmult_0_l.
    rewrite Zle_Qle in Hk. exact Hk. }
  rewrite Hle, Qfloor_div_pos.
  rewrite (Z.mod_eq k (Z.pos d)) by lia.
  unfold Z.sub. rewrite inject_Z_plus, inject_Z_opp, inject_Z_mult.
  change (inject_Z (Z.pos d)) with (inject_Z (Z.pos d)). ring.
Qed.

Lemma js_mod_bounds (x : Q) : 0 <= x -> 0 <= js_mod x 60 /\ js_mod x 60 < 60.
Proof.
  intro Hx. unfold js_mod, js_trunc.
  assert (Hle : Qle_bool 0 (x / 60) = true).
  { apply Qle_bool_iff. apply Qle_shift_div_l; [reflexivity|].
    rewrite Qmult_0_l. exact Hx. }
  rewrite Hle.
  pose proof (Qfloor_le (x / 60)) as Hl.
  pose proof (Qlt_floor (x / 60)) as Hu.
  rewrite inject_Z_plus in Hu. change (inject_Z 1) with 1 in Hu.
  set (f := inject_Z (Qfloor (x / 60))) in *.
  qconst. split; nra.
Qed.

Lemma js_round_bounds (x : Q) :
  0 <= x -> x < 60 -> (0 <= js_round x <= 60)%Z.
Proof.
  intros H0 H1. unfold js_round. split.
  - change 0%Z with (Qfloor 0). apply Qfloor_resp_le. lra.
  - apply Z.lt_succ_r. rewrite Zlt_Qlt.
    eapply Qle_lt_trans; [apply Qfloor_le|].
    rewrite <- Z.add_1_r, inject_Z_plus. change (inject_Z 60 + inject_Z 1) with (61 # 1).
    lra.
Qed.

Lemma js_mod_minutes (x : Q) :
  0 <= x -> js_mod (x * 60) 60 == 60 * (x - inject_Z (Qfloor x)).
Proof.
  intro Hx. unfold js_mod, js_trunc.
  assert (E : x * 60 / 60 == x) by (field; discriminate).
  assert (Hle : Qle_bool 0 (x * 60 / 60) = true)
    by (apply Qle_bool_iff; rewrite E; exact Hx).
  rewrite Hle, (Qfloor_comp _ _ E). ring.
Qed.

Lemma round_sixty_iff (f : Q) :
  0 <= f -> f < 1 ->
  (js_round (60 * f) = 60%Z <-> 119 # 120 <= f).
Proof.
  intros H0 H1. unfold js_round. split.
  - intro E. pose proof (Qfloor_le (60 * f + (1 # 2))) as L.
    rewrite E in L. change (inject_Z 60) with (60 # 1) in L. lra.
  - intro H. apply Z.le_antisymm.
    + apply Z.lt_succ_r. rewrite Zlt_Qlt.
      eapply Qle_lt_trans; [apply Qfloor_le|].
      change (inject_Z (Z.succ 60)) with (61 # 1). lra.
    + assert (K : 60 <= 60 * f + (1 # 2)) by lra.
      apply Qfloor_resp_le in K. exact K.
Qed.

(** [formatDurationForAudioExport] on a non-negative duration writes
    [m' ss] with [m >= 0] the whole minutes and a seconds field between 0
    and 60: the seconds are rounded after the minutes are floored, so the
    field shows 60 (instead of carrying over to the next minute) exactly
    when the fractional part of the minutes is at least [119/120], that is
    within half a second of the next whole minute. *)
Theorem formatDuration_seconds_field (minutes : Q) :
  0 <= minutes ->
  exists m s : Z,
    formatDurationForAudioExport minutes
      = string_of_Z m ++ js "' " ++ padStart2 (string_of_Z s) ++ [dquote] /\
    (0 <= m)%Z /\ (0 <= s <= 60)%Z /\
    m = Qfloor minutes /\
    (s = 60%Z <-> 119 # 120 <= minutes - inject_Z (Qfloor minutes)).
Proof.
  intro H. unfold formatDurationForAudioExport. cbv zeta.
  assert (Hg : js_gt 0 minutes = false).
  { unfold js_gt. apply negb_false_iff. now apply Qle_bool_iff. }
  rewrite Hg.
  assert (Em : Qfloor (minutes * 60 / 60) = Qfloor minutes)
    by (apply Qfloor_comp; field; discriminate).
  eexists; eexists; split; [reflexivity|]. split; [|split; [|split]].
  - rewrite Em. change 0%Z with (Qfloor 0). apply Qfloor_resp_le. exact H.
  - assert (Ht : 0 <= minutes * 60)
      by (apply Qmult_le_0_compat; [exact H|discriminate]).
    destruct (js_mod_bounds _ Ht) as [A B]. now apply js_round_bounds.
  - exact Em.
  - rewrite (js_round_proper _ _ (js_mod_minutes _ H)).
    pose proof (Qfloor_le minutes) as L.
    pose proof (Qlt_floor minutes) as U.
    rewrite inject_Z_plus in U. change (inject_Z 1) with 1 in U.
    apply round_sixty_iff; lra.
Qed.

Lemma formatDuration_seconds_field_witness :
  0 <= 9999 # 10000 /\
  formatDurationForAudioExport (9999 # 10000) = js "0' 60" ++ [dquote] /\
  exists m s : Z,
    formatDurationForAudioExport (9999 # 10000)
      = string_of_Z m ++ js "' " ++ padStart2 (string_of_Z s) ++ [dquote] /\
    (0 <= m)%Z /\ (0 <= s <= 60)%Z /\ m = 0%Z /\ s = 60%Z.
Proof.
  assert (H : 0 <= 9999 # 10000) by (apply Qle_bool_iff; vm_compute; reflexivity).
  split; [exact H|]. split; [vm_compute; reflexivity|].
  destruct (formatDuration_seconds_field _ H) as [m [s [E [Hm [Hs [Em Hiff]]]]]].
  exists m, s. split; [exact E|]. split; [exact Hm|]. split; [exact Hs|].
  split; [exact Em|].
  apply Hiff. apply Qle_bool_iff. vm_compute. reflexivity.
Defined.

(** A whole number [k >= 0] of seconds, given to
    [formatDurationForAudioExport] as [k / 60] minutes, is written as
    [k / 60] whole minutes and [k mod 60] seconds padded to two digits. *)
Theorem formatDuration_whole_seconds (k : Z) :
  (0 <= k)%Z ->
  formatDurationForAudioExport (inject_Z k / 60)
    = string_of_Z (k / 60) ++ js "' " ++ padStart2 (string_of_Z (k mod 60))
        ++ [dquote].
Proof.
  intro Hk. unfold formatDurationForAudioExport. cbv zeta.
  assert (H0 : 0 <= inject_Z k / 60).
  { apply Qle_shift_div_l; [reflexivity|]. rewrite Qmult_0_l.
    rewrite Zle_Qle in Hk. exact Hk. }
  assert (Hg : js_gt 0 (inject_Z k / 60) = false).
  { unfold js_gt. apply negb_false_iff. now apply Qle_bool_iff. }
  rewrite Hg.
  assert (Ht : inject_Z k / 60 * 60 == inject_Z k)
    by (unfold Qeq, Qdiv, Qmult, Qinv, inject_Z; simpl; lia).
  rewrite (Qfloor_comp (inject_Z k / 60 * 60 / 60) (inject_Z k / inject_Z 60))
    by (rewrite Ht; reflexivity).
  rewrite Qfloor_div_pos.
  rewrite (js_round_proper _ (inject_Z (k mod 60))).
  - now rewrite js_round_inject.
  - rewrite (js_mod_proper _ _ 60 Ht).
    change 60 with (inject_Z (Z.pos 60)). now apply js_mod_whole.
Qed.

Lemma formatDuration_whole_seconds_witness :
  (0 <= 125)%Z /\
  formatDurationForAudioExport (inject_Z 125 / 60)
    = string_of_Z (125 / 60) ++ js "' " ++ padStart2 (string_of_Z (125 mod 60))
        ++ [dquote].
Proof.
  split; [lia|]. apply formatDuration_whole_seconds. lia.
Defined.

(** [formatTrimmedDuration] on a whole number [k] of seconds: zero or a
    negative count is written [0 min 0 sec], a positive one as [k / 60]
    minutes and [k mod 60] seconds (not padded). *)
Theorem formatTrimmedDuration_whole_seconds (k : Z) :
  formatTrimmedDuration (inject_Z k)
    = if (k <=? 0)%Z then js "0 min 0 sec"
      else string_of_Z (k / 60) ++ js " min " ++ string_of_Z (k mod 60)
             ++ js " sec".
Proof.
  unfold formatTrimmedDuration. cbv zeta.
  destruct (Z.leb_spec k 0) as [Hk|Hk].
  - assert (E : Qle_bool (inject_Z k) 0 = true)
      by (apply Qle_bool_iff; change 0 with (inject_Z 0); now rewrite <- Zle_Qle).
    now rewrite E.
  - assert (E : Qle_bool (inject_Z k) 0 = false).
    { destruct (Qle_bool (inject_Z k) 0) eqn:E; [|reflexivity].
      apply Qle_bool_iff in E. change 0 with (inject_Z 0) in E.
      rewrite <- Zle_Qle in E. lia. }
    rewrite E.
    change 60 with (inject_Z (Z.pos 60)). rewrite Qfloor_div_pos.
    rewrite (js_round_proper _ (inject_Z (k mod 60))).
    + now rewrite js_round_inject.
    + apply js_mod_whole. lia.
Qed.

(** ** Spreadsheet import *)

Lemma Forall_mapi_from {A B} (P : B -> Prop) (f : nat -> A -> B) (i : nat)
    (l : list A) :
  (forall k x, In x l -> P (f k x)) -> Forall P (mapi_from f i l).
Proof.
  revert i. induction l as [|x r IH]; intros i H; constructor.
  - apply H. now left.
  - apply IH. intros k y Hy. apply H. now right.
Qed.

Lemma mapi_from_ids_seq {A} (f : nat -> A -> Slide) (i : nat) (l : list A) :
  (forall k x, id (f k x) = Z.of_nat (k + 1)) ->
  map id (mapi_from f i l) = map Z.of_nat (seq (S i) (List.length (mapi_from f i l))).
Proof.
  intro H. revert i. induction l as [|x r IH]; intro i; [reflexivity|].
  simpl. rewrite H, IH. f_equal. f_equal. lia.
Qed.

Lemma mapi_from_ids_read {A} (keep : A -> bool) (read : A -> option Z)
    (f : nat -> A -> Slide) (i : nat) (l : list A) :
  (forall x, keep x = valid_id (read x)) ->
  (forall k x z, read x = Some z -> (0 < z)%Z -> id (f k x) = z) ->
  map id (mapi_from f i (filter keep l)) = positive_ids read l.
Proof.
  intros Hk Hf. revert i. induction l as [|x r IH]; intro i; [reflexivity|].
  unfold positive_ids in *. simpl. rewrite Hk.
  destruct (read x) as [z|] eqn:E; simpl; [|apply IH].
  destruct (Z.ltb_spec 0 z) as [Hz|Hz]; simpl; [|apply IH].
  rewrite (Hf i x z E Hz), IH. reflexivity.
Qed.

Lemma keep_has_content (z : Z) (o t : jsstring) :
  ((0 <? List.length (trim o))%nat || (0 <? List.length (trim t))%nat) = true ->
  has_content (createSlideObject z o t).
Proof.
  intro H. unfold has_content; cbn [ost transcript createSlideObject].
  apply orb_true_iff in H as [H|H]; [left|right]; intro E; rewrite E in H;
    discriminate.
Qed.

Ltac solve_id_pos :=
  repeat match goal with
  | |- context [if (0 <? ?z)%Z then _ else _] => destruct (Z.ltb_spec 0 z)
  | |- context [match ?e with Some _ => _ | None => _ end] => destruct e
  end; lia.

Lemma inr_inj {A B} (a b : B) : @inr A B a = inr b -> a = b.
Proof. now intros [=]. Qed.

Ltac open_parse H :=
  cbv zeta in H;
  repeat match type of H with
  | context [match ?e with Some _ => _ | None => _ end] =>
      lazymatch e with
      | findColumn _ _ => destruct e
      | find_key _ _ => destruct e
      end
  end;
  cbv beta iota in H;
  try discriminate H; apply inr_inj in H; subst.

(** Every slide that [parseXlsx] returns is a fresh draft: on-screen text
    selected, no audio, not finalized, not discarded, and a positive id. *)
Theorem parseXlsx_fresh_drafts (json : list (list cell)) (slides : list Slide) :
  parseXlsx json = inr slides -> Forall fresh_draft slides.
Proof.
  intro H. destruct json as [|hr [|r1 rs]];
    try (simpl in H; injection H as <-; constructor).
  unfold parseXlsx in H. open_parse H;
  apply Forall_mapi_from; intros k x _;
  unfold fresh_draft; cbn [id selectedSource audioDuration isFinalized
    isDiscarded audioMeta createSlideObject];
  (split; [reflexivity|]); (split; [reflexivity|]); (split; [reflexivity|]);
  (split; [reflexivity|]); (split; [reflexivity|]); solve_id_pos.
Qed.

Lemma parseXlsx_fresh_drafts_witness :
  parseXlsx xlsx_numbered = inr [createSlideObject 3 (js "Intro") [];
                                 createSlideObject 7 [] (js "Narration")] /\
  Forall fresh_draft [createSlideObject 3 (js "Intro") [];
                      createSlideObject 7 [] (js "Narration")].
Proof.
  assert (H : parseXlsx xlsx_numbered
              = inr [createSlideObject 3 (js "Intro") [];
                     createSlideObject 7 [] (js "Narration")])
    by (vm_compute; reflexivity).
  split; [exact H|]. exact (parseXlsx_fresh_drafts _ _ H).
Defined.

(** Every slide that [parseCsv] returns is a fresh draft. *)
Theorem parseCsv_fresh_drafts (header : list jsstring) (data : list csv_row)
    (slides : list Slide) :
  parseCsv header data = inr slides -> Forall fresh_draft slides.
Proof.
  intro H. unfold parseCsv in H. open_parse H;
  apply Forall_mapi_from; intros k x _;
  unfold fresh_draft; cbn [id selectedSource audioDuration isFinalized
    isDiscarded audioMeta createSlideObject];
  (split; [reflexivity|]); (split; [reflexivity|]); (split; [reflexivity|]);
  (split; [reflexivity|]); (split; [reflexivity|]); solve_id_pos.
Qed.

Lemma parseCsv_fresh_drafts_witness :
  parseCsv csv_header3 csv_data3
    = inr [createSlideObject 12 (js "Intro") []; createSlideObject 4 [] []] /\
  Forall fresh_draft [createSlideObject 12 (js "Intro") [];
                      createSlideObject 4 [] []].
Proof.
  assert (H : parseCsv csv_header3 csv_data3
              = inr [createSlideObject 12 (js "Intro") [];
                     createSlideObject 4 [] []])
    by (vm_compute; reflexivity).
  split; [exact H|]. exact (parseCsv_fresh_drafts _ _ _ H).
Defined.

(** With a slide-number column, [parseXlsx] keeps exactly the rows whose
    number cell parses to a positive integer, and each slide's id is that
    number, in row order: the sequential fallback id is never used and
    duplicate numbers are kept as they are. *)
Theorem parseXlsx_numbered_ids (header_row : list cell)
    (dataRows : list (list cell)) (c : nat) (slides : list Slide) :
  findColumn (map header_text header_row) slideNo_names = Some c ->
  parseXlsx (header_row :: dataRows) = inr slides ->
  map id slides = positive_ids (fun row => parseInt10 (cell_text row c)) dataRows.
Proof.
  intros Hs H. destruct dataRows as [|r1 rs];
    [simpl in H; injection H as <-; reflexivity|].
  unfold parseXlsx in H. cbv zeta in H. rewrite Hs in H. open_parse H;
  (apply mapi_from_ids_read; [reflexivity|]);
  intros k x z E Hz; cbn [id createSlideObject]; rewrite E;
  destruct (Z.ltb_spec 0 z); lia.
Qed.

Lemma parseXlsx_numbered_ids_witness :
  findColumn (map header_text (hd [] xlsx_numbered)) slideNo_names = Some 0%nat /\
  parseXlsx (hd [] xlsx_numbered :: tl xlsx_numbered)
    = inr [createSlideObject 3 (js "Intro") [];
           createSlideObject 7 [] (js "Narration")] /\
  map id [createSlideObject 3 (js "Intro") [];
          createSlideObject 7 [] (js "Narration")]
    = positive_ids (fun row => parseInt10 (cell_text row 0))
        (tl xlsx_numbered).
Proof.
  assert (H1 : findColumn (map header_text (hd [] xlsx_numbered)) slideNo_names
               = Some 0%nat) by (vm_compute; reflexivity).
  assert (H2 : parseXlsx (hd [] xlsx_numbered :: tl xlsx_numbered)
              = inr [createSlideObject 3 (js "Intro") [];
                     createSlideObject 7 [] (js "Narration")])
    by (vm_compute; reflexivity).
  split; [exact H1|]. split; [exact H2|].
  exact (parseXlsx_numbered_ids _ _ _ _ H1 H2).
Defined.

(** With a slide-number column, [parseCsv] keeps exactly the records whose
    number field parses to a positive integer, with that number as id. *)
Theorem parseCsv_numbered_ids (header : list jsstring) (data : list csv_row)
    (k : jsstring) (slides : list Slide) :
  find_key header slideNo_names = Some k ->
  parseCsv header data = inr slides ->
  map id slides = positive_ids (fun row => parseInt10 (csv_get row k)) data.
Proof.
  intros Hs H. unfold parseCsv in H. cbv zeta in H. rewrite Hs in H.
  open_parse H;
  (apply mapi_from_ids_read; [reflexivity|]);
  intros i x z E Hz; cbn [id createSlideObject]; rewrite E;
  destruct (Z.ltb_spec 0 z); lia.
Qed.

Lemma parseCsv_numbered_ids_witness :
  find_key csv_header3 slideNo_names = Some (js "slide number") /\
  parseCsv csv_header3 csv_data3
    = inr [createSlideObject 12 (js "Intro") []; createSlideObject 4 [] []] /\
  map id [createSlideObject 12 (js "Intro") []; createSlideObject 4 [] []]
    = positive_ids (fun row => parseInt10 (csv_get row (js "slide number")))
        csv_data3.
Proof.
  assert (H1 : find_key csv_header3 slideNo_names = Some (js "slide number"))
    by (vm_compute; reflexivity).
  assert (H2 : parseCsv csv_header3 csv_data3
              = inr [createSlideObject 12 (js "Intro") [];
                     createSlideObject 4 [] []])
    by (vm_compute; reflexivity).
  split; [exact H1|]. split; [exact H2|].
  exact (parseCsv_numbered_ids _ _ _ _ H1 H2).
Defined.

(** Without a slide-number column, [parseXlsx] numbers the slides
    [1, 2, ..., n] in row order, and every slide has some on-screen text or
    transcript: blank rows are dropped. *)
Theorem parseXlsx_unnumbered_ids (header_row : list cell)
    (dataRows : list (list cell)) (slides : list Slide) :
  findColumn (map header_text header_row) slideNo_names = None ->
  parseXlsx (header_row :: dataRows) = inr slides ->
  map id slides = map Z.of_nat (seq 1 (List.length slides)) /\
  Forall has_content slides.
Proof.
  intros Hs H. destruct dataRows as [|r1 rs];
    [simpl in H; injection H as <-; split; [reflexivity|constructor]|].
  unfold parseXlsx in H. cbv zeta in H. rewrite Hs in H. open_parse H;
  (split; [apply mapi_from_ids_seq; reflexivity|]);
  apply Forall_mapi_from; intros ? x Hx; apply filter_In in Hx as [_ Hx];
  now apply keep_has_content.
Qed.

Lemma parseXlsx_unnumbered_ids_witness :
  findColumn (map header_text (hd [] xlsx_unnumbered)) slideNo_names = None /\
  parseXlsx (hd [] xlsx_unnumbered :: tl xlsx_unnumbered)
    = inr [createSlideObject 1 (js "Intro") [];
           createSlideObject 2 [] (js "Narration")] /\
  map id [createSlideObject 1 (js "Intro") [];
          createSlideObject 2 [] (js "Narration")] = map Z.of_nat (seq 1 2) /\
  Forall has_content [createSlideObject 1 (js "Intro") [];
                      createSlideObject 2 [] (js "Narration")].
Proof.
  assert (H1 : findColumn (map header_text (hd [] xlsx_unnumbered)) slideNo_names
               = None) by (vm_compute; reflexivity).
  assert (H2 : parseXlsx (hd [] xlsx_unnumbered :: tl xlsx_unnumbered)
              = inr [createSlideObject 1 (js "Intro") [];
                     createSlideObject 2 [] (js "Narration")])
    by (vm_compute; reflexivity).
  split; [exact H1|]. split; [exact H2|].
  exact (parseXlsx_unnumbered_ids _ _ _ H1 H2).
Defined.

(** Without a slide-number column, [parseCsv] numbers the slides
    [1, 2, ..., n] in record order and drops blank records. *)
Theorem parseCsv_unnumbered_ids (header : list jsstring) (data : list csv_row)
    (slides : list Slide) :
  find_key header slideNo_names = None ->
  parseCsv header data = inr slides ->
  map id slides = map Z.of_nat (seq 1 (List.length slides)) /\
  Forall has_content slides.
Proof.
  intros Hs H. unfold parseCsv in H. cbv zeta in H. rewrite Hs in H.
  open_parse H;
  (split; [apply mapi_from_ids_seq; reflexivity|]);
  apply Forall_mapi_from; intros ? x Hx; apply filter_In in Hx as [_ Hx];
  now apply keep_has_content.
Qed.

Lemma parseCsv_unnumbered_ids_witness :
  find_key csv_header2 slideNo_names = None /\
  parseCsv csv_header2 csv_data2
    = inr [createSlideObject 1 (js "Intro") [];
           createSlideObject 2 [] (js "Narration")] /\
  map id [createSlideObject 1 (js "Intro") [];
          createSlideObject 2 [] (js "Narration")] = map Z.of_nat (seq 1 2) /\
  Forall has_content [createSlideObject 1 (js "Intro") [];
                      createSlideObject 2 [] (js "Narration")].
Proof.
  assert (H1 : find_key csv_header2 slideNo_names = None)
    by (vm_compute; reflexivity).
  assert (H2 : parseCsv csv_header2 csv_data2
              = inr [createSlideObject 1 (js "Intro") [];
                     createSlideObject 2 [] (js "Narration")])
    by (vm_compute; reflexivity).
  split; [exact H1|]. split; [exact H2|].
  exact (parseCsv_unnumbered_ids _ _ _ H1 H2).
Defined.

Lemma findIndex_aux_spec {A} (p : A -> bool) (i : nat) (l : list A) :
  match findIndex_aux p i l with
  | Some j => (i <= j)%nat /\
      exists x, nth_error l (j - i) = Some x /\ p x = true /\
      (forall k y, (k < j - i)%nat -> nth_error l k = Some y -> p y = false)
  | None => forall x, In x l -> p x = false
  end.
Proof.
  revert i. induction l as [|x r IH]; intro i; simpl; [intros _ []|].
  destruct (p x) eqn:Px.
  - split; [lia|]. exists x. rewrite Nat.sub_diag. split; [reflexivity|].
    split; [exact Px|]. intros k y Hk; lia.
  - specialize (IH (S i)). destruct (findIndex_aux p (S i) r) as [j|].
    + destruct IH as [Hj [y [Hy [Py Hb]]]]. split; [lia|].
      exists y. replace (j - i)%nat with (S (j - S i)) by lia.
      split; [exact Hy|]. split; [exact Py|].
      intros [|k] z Hk Hz; simpl in Hz; [congruence|].
      apply (Hb k z); [lia|exact Hz].
    + intros y [<-|Hy]; [exact Px|]. now apply IH.
Qed.

(** [findColumn] returns the position of the first header cell that matches
    (after lower-casing and trimming) the first of the candidate names that
    matches any header cell at all; [None] (the source's [-1]) means that no
    header cell matches any candidate name. *)
Theorem findColumn_spec (header names : list jsstring) :
  match findColumn header names with
  | Some i =>
      exists pre name post h,
        names = pre ++ name :: post /\ nth_error header i = Some h /\
        jsstring_eqb (trim (toLowerCase h)) (toLowerCase name) = true /\
        (forall n h', In n pre -> In h' header ->
           jsstring_eqb (trim (toLowerCase h')) (toLowerCase n) = false) /\
        (forall j h', (j < i)%nat -> nth_error header j = Some h' ->
           jsstring_eqb (trim (toLowerCase h')) (toLowerCase name) = false)
  | None =>
      forall n h, In n names -> In h header ->
        jsstring_eqb (trim (toLowerCase h)) (toLowerCase n) = false
  end.
Proof.
  induction names as [|name rest IH]; simpl; [intros n h []|].
  pose proof (findIndex_aux_spec
    (fun h => jsstring_eqb (trim (toLowerCase h)) (toLowerCase name)) 0 header)
    as Hf.
  destruct (findIndex_aux _ 0 header) as [j|].
  - destruct Hf as [_ [x [Hx [Px Hb]]]]. rewrite Nat.sub_0_r in Hx, Hb.
    exists [], name, rest, x. split; [reflexivity|]. split; [exact Hx|].
    split; [exact Px|]. split; [intros n h' []|]. exact Hb.
  - destruct (findColumn header rest) as [i|].
    + destruct IH as [pre [nm [post [h [E [Hh [Hm [Hpre Hb]]]]]]]].
      exists (name :: pre), nm, post, h. rewrite E.
      split; [reflexivity|]. split; [exact Hh|]. split; [exact Hm|].
      split; [|exact Hb].
      intros n h' [<-|Hn] Hh'; [now apply Hf|]. now apply Hpre.
    + intros n h [<-|Hn] Hh; [now apply Hf|]. now apply IH.
Qed.

(** ** The review screen *)

Lemma nodup_ids_neq (slides : list Slide) (i j : nat) (s t : Slide) :
  NoDup (map id slides) -> nth_error slides i = Some s ->
  nth_error slides j = Some t -> i <> j -> id s <> id t.
Proof.
  intros Hnd Hi Hj Hij E. apply Hij.
  apply (proj1 (NoDup_nth_error (map id slides)) Hnd).
  - rewrite length_map. apply nth_error_Some. congruence.
  - rewrite !nth_error_map, Hi, Hj. simpl. congruence.
Qed.

Lemma findIndexZ_at (slides : list Slide) (i : nat) (s : Slide) :
  NoDup (map id slides) -> nth_error slides i = Some s ->
  findIndexZ slides (Some (id s)) = Z.of_nat i.
Proof.
  intros Hnd Hs. unfold findIndexZ.
  pose proof (findIndex_aux_spec (fun t => (id t =? id s)%Z) 0 slides) as Hf.
  destruct (findIndex_aux _ 0 slides) as [j|].
  - destruct Hf as [_ [x [Hx [Px _]]]]. rewrite Nat.sub_0_r in Hx.
    apply Z.eqb_eq in Px. destruct (Nat.eq_dec j i) as [->|Hne]; [reflexivity|].
    exfalso. exact (nodup_ids_neq _ _ _ _ _ Hnd Hx Hs Hne Px).
  - apply nth_error_In in Hs. specialize (Hf s Hs). simpl in Hf.
    now rewrite Z.eqb_refl in Hf.
Qed.

Lemma findIndexZ_absent (slides : list Slide) (aid : option Z) :
  (forall s, In s slides -> aid <> Some (id s)) -> findIndexZ slides aid = (-1)%Z.
Proof.
  intro Ha. unfold findIndexZ.
  pose proof (findIndex_aux_spec (fun s => match aid with
                                           | Some a => (id s =? a)%Z
                                           | None => false
                                           end) 0 slides) as Hf.
  destruct (findIndex_aux _ 0 slides) as [j|]; [|reflexivity].
  destruct Hf as [_ [x [Hx [Px _]]]]. apply nth_error_In in Hx.
  destruct aid as [a|]; [|discriminate]. apply Z.eqb_eq in Px. subst a.
  exfalso. exact (Ha x Hx eq_refl).
Qed.

(** With distinct slide ids, [Next] moves from the slide at position [i] to
    the slide at position [i + 1] and stays on the last slide; [Previous]
    moves to position [i - 1] and stays on the first slide. The neighbours
    are taken in the full list, discarded slides included. *)
Theorem review_navigation (slides : list Slide) (i : nat) (s : Slide) :
  NoDup (map id slides) -> nth_error slides i = Some s ->
  handleNextSlide slides (Some (id s))
    = match nth_error slides (S i) with
      | Some t => Some (id t)
      | None => Some (id s)
      end /\
  handlePreviousSlide slides (Some (id s))
    = match i with
      | O => Some (id s)
      | S j => option_map id (nth_error slides j)
      end.
Proof.
  intros Hnd Hs. unfold handleNextSlide, handlePreviousSlide.
  rewrite (findIndexZ_at _ _ _ Hnd Hs).
  assert (Hi : (i < List.length slides)%nat)
    by (apply nth_error_Some; congruence).
  split.
  - destruct (nth_error slides (S i)) as [t|] eqn:Ht.
    + assert (Hl : (S i < List.length slides)%nat)
        by (apply nth_error_Some; congruence).
      destruct (Z.ltb_spec (Z.of_nat i) (Z.of_nat (List.length slides) - 1));
        [|lia].
      unfold id_at. replace (Z.to_nat (Z.of_nat i + 1)) with (S i) by lia.
      now rewrite Ht.
    + apply nth_error_None in Ht.
      destruct (Z.ltb_spec (Z.of_nat i) (Z.of_nat (List.length slides) - 1));
        [lia|reflexivity].
  - destruct i as [|j]; [reflexivity|].
    destruct (Z.ltb_spec 0 (Z.of_nat (S j))); [|lia].
    unfold id_at. replace (Z.to_nat (Z.of_nat (S j) - 1)) with j by lia.
    destruct (nth_error slides j) eqn:Ht; [reflexivity|].
    apply nth_error_None in Ht. lia.
Qed.

Lemma review_navigation_witness :
  NoDup (map id [sample_slide 1 [] OST 0 false None;
                 sample_slide 2 [] OST 0 false (Some true);
                 sample_slide 3 [] OST 0 false None]) /\
  nth_error [sample_slide 1 [] OST 0 false None;
             sample_slide 2 [] OST 0 false (Some true);
             sample_slide 3 [] OST 0 false None] 0
    = Some (sample_slide 1 [] OST 0 false None) /\
  handleNextSlide [sample_slide 1 [] OST 0 false None;
                   sample_slide 2 [] OST 0 false (Some true);
                   sample_slide 3 [] OST 0 false None] (Some 1%Z) = Some 2%Z /\
  handlePreviousSlide [sample_slide 1 [] OST 0 false None;
                       sample_slide 2 [] OST 0 false (Some true);
                       sample_slide 3 [] OST 0 false None] (Some 1%Z) = Some 1%Z.
Proof.
  assert (Hnd : NoDup (map id [sample_slide 1 [] OST 0 false None;
                               sample_slide 2 [] OST 0 false (Some true);
                               sample_slide 3 [] OST 0 false None])).
  { simpl. repeat constructor; simpl; intuition discriminate. }
  assert (Hs : nth_error [sample_slide 1 [] OST 0 false None;
                          sample_slide 2 [] OST 0 false (Some true);
                          sample_slide 3 [] OST 0 false None] 0
               = Some (sample_slide 1 [] OST 0 false None)) by reflexivity.
  destruct (review_navigation _ _ _ Hnd Hs) as [H1 H2].
  split; [exact Hnd|]. split; [exact Hs|]. split; [exact H1|exact H2].
Defined.

(** When the active id belongs to no slide (for instance [null] after the
    only slide was discarded), [Next] activates the first slide, discarded
    or not, and [Previous] does nothing. *)
Theorem review_navigation_lost (t : Slide) (rest : list Slide) (aid : option Z) :
  (forall s, In s (t :: rest) -> aid <> Some (id s)) ->
  handleNextSlide (t :: rest) aid = Some (id t) /\
  handlePreviousSlide (t :: rest) aid = aid.
Proof.
  intro Ha. unfold handleNextSlide, handlePreviousSlide.
  rewrite (findIndexZ_absent _ _ Ha). split.
  - destruct (Z.ltb_spec (-1) (Z.of_nat (List.length (t :: rest)) - 1));
      [reflexivity|cbn [List.length] in *; lia].
  - reflexivity.
Qed.

Lemma review_navigation_lost_witness :
  (forall s, In s [sample_slide 1 [] OST 0 false (Some true)] ->
             None <> Some (id s)) /\
  handleNextSlide [sample_slide 1 [] OST 0 false (Some true)] None = Some 1%Z /\
  handlePreviousSlide [sample_slide 1 [] OST 0 false (Some true)] None = None.
Proof.
  assert (Ha : forall s, In s [sample_slide 1 [] OST 0 false (Some true)] ->
                         None <> Some (id s)) by discriminate.
  split; [exact Ha|]. exact (review_navigation_lost _ [] None Ha).
Defined.

(** [handleDiscardAndNext] on the slide at position [i] (distinct ids):
    the list keeps its ids and order with the updated slide at position
    [i], and the new active id is that of another slide, or [null] exactly
    when the deck has a single slide. *)
Theorem discard_and_next (slides : list Slide) (aid : option Z) (i : nat)
    (s u : Slide) :
  NoDup (map id slides) -> nth_error slides i = Some s -> id u = id s ->
  map id (fst (handleDiscardAndNext slides aid u)) = map id slides /\
  nth_error (fst (handleDiscardAndNext slides aid u)) i = Some u /\
  (snd (handleDiscardAndNext slides aid u) = None
     <-> List.length slides = 1%nat) /\
  (forall b, snd (handleDiscardAndNext slides aid u) = Some b ->
     b <> id u /\ In b (map id slides)).
Proof.
  intros Hnd Hs Hu. unfold handleDiscardAndNext. cbn [fst snd].
  rewrite Hu, (findIndexZ_at _ _ _ Hnd Hs).
  assert (Hi : (i < List.length slides)%nat)
    by (apply nth_error_Some; congruence).
  split.
  { unfold handleSlideUpdate. rewrite map_map. apply map_ext. intro x.
    destruct (Z.eqb_spec (id x) (id u)); congruence. }
  split.
  { unfold handleSlideUpdate. rewrite nth_error_map, Hs. simpl.
    now rewrite Hu, Z.eqb_refl. }
  destruct (Z.ltb_spec (Z.of_nat i) (Z.of_nat (List.length slides) - 1)).
  - unfold id_at. replace (Z.to_nat (Z.of_nat i + 1)) with (S i) by lia.
    destruct (nth_error slides (S i)) as [t|] eqn:Ht.
    + split; [split; [discriminate|lia]|].
      intros b [= <-]. split.
      * intro E. apply (nodup_ids_neq _ _ _ _ _ Hnd Hs Ht); [lia|congruence].
      * apply in_map. now apply nth_error_In in Ht.
    + apply nth_error_None in Ht. lia.
  - destruct (Z.ltb_spec 0 (Z.of_nat i)).
    + unfold id_at. replace (Z.to_nat (Z.of_nat i - 1)) with (i - 1)%nat by lia.
      destruct (nth_error slides (i - 1)) as [t|] eqn:Ht.
      * split; [split; [discriminate|lia]|].
        intros b [= <-]. split.
        -- intro E. apply (nodup_ids_neq _ _ _ _ _ Hnd Hs Ht); [lia|congruence].
        -- apply in_map. now apply nth_error_In in Ht.
      * apply nth_error_None in Ht. lia.
    + split; [split; [intros _; lia|reflexivity]|]. intros b [=].
Qed.

Lemma discard_and_next_witness :
  NoDup (map id [sample_slide 1 [] OST 0 false None;
                 sample_slide 2 [] OST 0 false None]) /\
  nth_error [sample_slide 1 [] OST 0 false None;
             sample_slide 2 [] OST 0 false None] 1
    = Some (sample_slide 2 [] OST 0 false None) /\
  id (sample_slide 2 [] OST 0 false (Some true))
    = id (sample_slide 2 [] OST 0 false None) /\
  snd (handleDiscardAndNext [sample_slide 1 [] OST 0 false None;
                             sample_slide 2 [] OST 0 false None] (Some 2%Z)
         (sample_slide 2 [] OST 0 false (Some true))) = Some 1%Z /\
  (forall b, snd (handleDiscardAndNext [sample_slide 1 [] OST 0 false None;
                                        sample_slide 2 [] OST 0 false None]
                   (Some 2%Z) (sample_slide 2 [] OST 0 false (Some true)))
               = Some b ->
     b <> id (sample_slide 2 [] OST 0 false (Some true)) /\
     In b (map id [sample_slide 1 [] OST 0 false None;
                   sample_slide 2 [] OST 0 false None])).
Proof.
  assert (Hnd : NoDup (map id [sample_slide 1 [] OST 0 false None;
                               sample_slide 2 [] OST 0 false None])).
  { simpl. repeat constructor; simpl; intuition discriminate. }
  assert (Hs : nth_error [sample_slide 1 [] OST 0 false None;
                          sample_slide 2 [] OST 0 false None] 1
               = Some (sample_slide 2 [] OST 0 false None)) by reflexivity.
  assert (Hu : id (sample_slide 2 [] OST 0 false (Some true))
               = id (sample_slide 2 [] OST 0 false None)) by reflexivity.
  destruct (discard_and_next _ (Some 2%Z) _ _ _ Hnd Hs Hu) as [_ [_ [_ H]]].
  split; [exact Hnd|]. split; [exact Hs|]. split; [exact Hu|].
  split; [vm_compute; reflexivity|exact H].
Defined.

(** ** The statistics panel and the summary screen *)

Lemma filter_all_true {A} (p : A -> bool) (l : list A) :
  (forall x, In x l -> p x = true) -> filter p l = l.
Proof.
  induction l as [|x r IH]; intro H; simpl; [reflexivity|].
  rewrite (H x (or_introl eq_refl)), IH; [reflexivity|].
  intros y Hy. apply H. now right.
Qed.

Lemma sumQ_filter_le {A} (g : A -> Q) (p : A -> bool) (l : list A) :
  (forall x, In x l -> 0 <= g x) ->
  sumQ (map g (filter p l)) <= sumQ (map g l).
Proof.
  induction l as [|x r IH]; intro H; simpl; [apply Qle_refl|].
  assert (Hx : 0 <= g x) by (apply H; now left).
  assert (Hr : sumQ (map g (filter p r)) <= sumQ (map g r))
    by (apply IH; intros y Hy; apply H; now right).
  destruct (p x); simpl; lra.
Qed.

Lemma word_contribution_nonneg (s : Slide) : 0 <= word_contribution s.
Proof.
  unfold word_contribution. destruct (selectedSource s); try apply Qle_refl;
  change 0 with (inject_Z 0); rewrite <- Zle_Qle; lia.
Qed.

(** Once every active slide is finalized (the condition that enables
    [Complete Review]), the statistics panel and the summary screen compute
    the same metrics. *)
Theorem stats_match_final (slides : list Slide) (r f : jsnum) :
  allSlidesFinalized slides = true ->
  statsPanelMetrics slides r f = finalizationMetrics slides r f.
Proof.
  intro H. unfold statsPanelMetrics, finalizationMetrics. cbv zeta.
  rewrite filter_all_true; [reflexivity|].
  unfold allSlidesFinalized in H. rewrite forallb_forall in H. exact H.
Qed.

Lemma stats_match_final_witness :
  allSlidesFinalized [sample_slide 1 (js "a b") OST 0 true None;
                      sample_slide 2 [] AUDIO 3 false (Some true)] = true /\
  statsPanelMetrics [sample_slide 1 (js "a b") OST 0 true None;
                     sample_slide 2 [] AUDIO 3 false (Some true)]
    (JNum 1) (JNum 2)
  = finalizationMetrics [sample_slide 1 (js "a b") OST 0 true None;
                         sample_slide 2 [] AUDIO 3 false (Some true)]
      (JNum 1) (JNum 2).
Proof.
  assert (H : allSlidesFinalized [sample_slide 1 (js "a b") OST 0 true None;
                                  sample_slide 2 [] AUDIO 3 false (Some true)]
              = true) by reflexivity.
  split; [exact H|]. exact (stats_match_final _ _ _ H).
Defined.

(** With non-negative audio durations, the statistics panel (finalized
    active slides only) never shows more raw or rounded CPE than the summary
    screen (all active slides) for the same question counts. *)
Theorem stats_le_final (slides : list Slide) (r f : jsnum) :
  (forall s, In s slides -> 0 <= audioDuration s) ->
  rawCpeHours (statsPanelMetrics slides r f)
    <= rawCpeHours (finalizationMetrics slides r f) /\
  roundedCpe (statsPanelMetrics slides r f)
    <= roundedCpe (finalizationMetrics slides r f).
Proof.
  intro Hd.
  assert (Hraw : rawCpeHours (statsPanelMetrics slides r f)
                 <= rawCpeHours (finalizationMetrics slides r f)).
  { unfold statsPanelMetrics, finalizationMetrics. cbv zeta.
    set (L := filter is_active slides).
    set (F := filter (fun s => isFinalized s) L).
    assert (HF : filter is_active F = F).
    { apply filter_all_true. intros x Hx. unfold F, L in Hx.
      apply filter_In in Hx as [Hx _]. now apply filter_In in Hx as [_ Hx]. }
    assert (HL : filter is_active L = L) by apply filter_idem.
    pose proof (raw_of_totals F r f) as R1. pose proof (raw_of_totals L r f) as R2.
    cbv zeta in R1, R2.
    pose proof (totalWords_sum F r f) as W1. pose proof (totalWords_sum L r f) as W2.
    pose proof (totalAvMinutes_sum F r f) as A1.
    pose proof (totalAvMinutes_sum L r f) as A2.
    rewrite HF in W1, A1. rewrite HL in W2, A2.
    assert (Wle : sumQ (map word_contribution F)
                  <= sumQ (map word_contribution L))
      by (apply sumQ_filter_le; intros; apply word_contribution_nonneg).
    assert (Ale : sumQ (map time_contribution F)
                  <= sumQ (map time_contribution L)).
    { apply sumQ_filter_le. intros x Hx. unfold time_contribution.
      unfold L in Hx. apply filter_In in Hx as [Hx _].
      destruct (selectedSource x); [apply Qle_refl| |]; now apply Hd. }
    assert (Hq : totalQuestions (useCpeCalculator F r f)
                 = totalQuestions (useCpeCalculator L r f)) by reflexivity.
    rewrite R1, R2, Hq. qconst. lra. }
  split; [exact Hraw|].
  unfold statsPanelMetrics, finalizationMetrics in *. cbv zeta in *.
  rewrite !rounded_is_round_half. now apply round_half_mono.
Qed.

Lemma stats_le_final_witness :
  (forall s, In s [sample_slide 1 (js "a b") OST 0 true None;
                   sample_slide 2 [] AUDIO 3 false None] ->
             0 <= audioDuration s) /\
  rawCpeHours (statsPanelMetrics [sample_slide 1 (js "a b") OST 0 true None;
                                  sample_slide 2 [] AUDIO 3 false None]
                 (JNum 0) (JNum 0))
    <= rawCpeHours (finalizationMetrics
                      [sample_slide 1 (js "a b") OST 0 true None;
                       sample_slide 2 [] AUDIO 3 false None] (JNum 0) (JNum 0)) /\
  roundedCpe (statsPanelMetrics [sample_slide 1 (js "a b") OST 0 true None;
                                 sample_slide 2 [] AUDIO 3 false None]
                (JNum 0) (JNum 0))
    <= roundedCpe (finalizationMetrics
                     [sample_slide 1 (js "a b") OST 0 true None;
                      sample_slide 2 [] AUDIO 3 false None] (JNum 0) (JNum 0)).
Proof.
  assert (H : forall s, In s [sample_slide 1 (js "a b") OST 0 true None;
                              sample_slide 2 [] AUDIO 3 false None] ->
                        0 <= audioDuration s).
  { intros s [<-|[<-|[]]]; simpl; apply Qle_bool_iff; reflexivity. }
  split; [exact H|]. exact (stats_le_final _ _ _ H).
Defined.

(** ** The slide editor's duration and finalization *)

Lemma js_round_near (x : Q) :
  x - (1 # 2) < inject_Z (js_round x) /\ inject_Z (js_round x) <= x + (1 # 2).
Proof.
  unfold js_round. pose proof (Qfloor_le (x + (1 # 2))) as Hl.
  pose proof (Qlt_floor (x + (1 # 2))) as Hu.
  rewrite inject_Z_plus in Hu. change (inject_Z 1) with 1 in Hu.
  split; lra.
Qed.

Lemma js_mod_nonneg_eq (x : Q) :
  0 <= x -> js_mod x 60 = x - 60 * inject_Z (Qfloor (x / 60)).
Proof.
  intro Hx. unfold js_mod, js_trunc.
  assert (Hle : Qle_bool 0 (x / 60) = true).
  { apply Qle_bool_iff. apply Qle_shift_div_l; [reflexivity|].
    rewrite Qmult_0_l. exact Hx. }
  now rewrite Hle.
Qed.

Lemma whole_split (k : Z) :
  inject_Z (k / 60) + inject_Z (k mod 60) / 60 == inject_Z k / 60.
Proof.
  rewrite (Z.div_mod k 60) at 3 by lia.
  rewrite inject_Z_plus, inject_Z_mult. change (inject_Z 60) with 60.
  qconst. lra.
Qed.

(** Accepting a duration of [d >= 0] seconds from the audio modal sets the
    minutes and seconds inputs, and the effect turns them back into a
    duration in minutes within half a second ([1/120] minute) of [d / 60];
    the audio metadata is the accepted one. *)
Theorem accept_duration_rounding (st : EditorState) (d : Q) (meta : AudioMeta) :
  0 <= d ->
  d / 60 - (1 # 120)
    <= ed_audioDuration (sync_audioDuration (handleAcceptDuration st d meta)) /\
  ed_audioDuration (sync_audioDuration (handleAcceptDuration st d meta))
    <= d / 60 + (1 # 120) /\
  ed_audioMeta (sync_audioDuration (handleAcceptDuration st d meta)) = meta.
Proof.
  intro Hd. unfold sync_audioDuration, handleAcceptDuration, set_audioDuration.
  cbn [ed_audioDuration ed_minutes ed_seconds ed_audioMeta].
  rewrite !or_zero_value. rewrite (js_mod_nonneg_eq d Hd).
  set (f := inject_Z (Qfloor (d / 60))).
  destruct (js_round_near (d - 60 * f)) as [A B].
  set (r := inject_Z (js_round (d - 60 * f))) in *.
  qconst. split; [lra|]. split; [lra|reflexivity].
Qed.

Lemma accept_duration_rounding_witness :
  0 <= 7535 # 100 /\
  (7535 # 100) / 60 - (1 # 120)
    <= ed_audioDuration (sync_audioDuration
         (handleAcceptDuration (mount (sample_slide 1 [] AUDIO 0 false None)
            (JNum 0) (JNum 0)) (7535 # 100) manual_meta)) /\
  ed_audioDuration (sync_audioDuration
      (handleAcceptDuration (mount (sample_slide 1 [] AUDIO 0 false None)
         (JNum 0) (JNum 0)) (7535 # 100) manual_meta))
    <= (7535 # 100) / 60 + (1 # 120) /\
  ed_audioMeta (sync_audioDuration
      (handleAcceptDuration (mount (sample_slide 1 [] AUDIO 0 false None)
         (JNum 0) (JNum 0)) (7535 # 100) manual_meta)) = manual_meta.
Proof.
  assert (H : 0 <= 7535 # 100) by (apply Qle_bool_iff; reflexivity).
  split; [exact H|]. exact (accept_duration_rounding _ _ manual_meta H).
Defined.

(** Accepting a whole number [k >= 0] of seconds gives exactly [k / 60]
    minutes. *)
Theorem accept_duration_whole_seconds (st : EditorState) (k : Z)
    (meta : AudioMeta) :
  (0 <= k)%Z ->
  ed_audioDuration (sync_audioDuration (handleAcceptDuration st (inject_Z k) meta))
    == inject_Z k / 60.
Proof.
  intro Hk. unfold sync_audioDuration, handleAcceptDuration, set_audioDuration.
  cbn [ed_audioDuration ed_minutes ed_seconds].
  rewrite !or_zero_value.
  change 60 with (inject_Z (Z.pos 60)) at 1 2.
  rewrite Qfloor_div_pos, (js_round_proper _ _ (js_mod_whole k 60 Hk)),
    js_round_inject.
  apply whole_split.
Qed.

Lemma accept_duration_whole_seconds_witness :
  (0 <= 125)%Z /\
  ed_audioDuration (sync_audioDuration
      (handleAcceptDuration (mount (sample_slide 1 [] AUDIO 0 false None)
         (JNum 0) (JNum 0)) (inject_Z 125) manual_meta))
    == inject_Z 125 / 60.
Proof.
  split; [lia|]. apply accept_duration_whole_seconds. lia.
Defined.

(** Opening the editor on a slide splits its duration into whole minutes
    and rounded seconds (0 to 60) and the effect recombines them: the
    editor's duration is the slide's snapped to the nearest whole second,
    within [1/120] minute. *)
Theorem mount_snaps_duration (slide : Slide) :
  (0 <= initialSeconds slide <= 60)%Z /\
  ed_audioDuration (mounted slide)
    == inject_Z (initialMinutes slide) + inject_Z (initialSeconds slide) / 60 /\
  audioDuration slide - (1 # 120) <= ed_audioDuration (mounted slide) /\
  ed_audioDuration (mounted slide) <= audioDuration slide + (1 # 120).
Proof.
  unfold mounted, sync_audioDuration, set_audioDuration, mount.
  cbn [ed_audioDuration ed_minutes ed_seconds]. rewrite !or_zero_value.
  unfold initialSeconds, initialMinutes.
  set (x := audioDuration slide).
  pose proof (Qfloor_le x) as Hl. pose proof (Qlt_floor x) as Hu.
  rewrite inject_Z_plus in Hu. change (inject_Z 1) with 1 in Hu.
  set (f := inject_Z (Qfloor x)) in *.
  destruct (js_round_near ((x - f) * 60)) as [A B].
  set (r := js_round ((x - f) * 60)) in *.
  split; [|split; [reflexivity|]].
  - split.
    + change 0%Z with (Qfloor 0). apply Qfloor_resp_le. lra.
    + apply Z.lt_succ_r. rewrite Zlt_Qlt.
      eapply Qle_lt_trans; [apply Qfloor_le|].
      rewrite <- Z.add_1_r, inject_Z_plus.
      change (inject_Z 60 + inject_Z 1) with (61 # 1). lra.
  - qconst. split; lra.
Qed.

(** A slide whose duration is a whole number of seconds keeps it exactly
    when the editor is opened on it. *)
Theorem mount_keeps_whole_seconds (slide : Slide) (k : Z) :
  audioDuration slide == inject_Z k / 60 ->
  ed_audioDuration (mounted slide) == audioDuration slide.
Proof.
  intro Hk.
  unfold mounted, sync_audioDuration, set_audioDuration, mount.
  cbn [ed_audioDuration ed_minutes ed_seconds]. rewrite !or_zero_value.
  unfold initialSeconds, initialMinutes.
  assert (Hm : Qfloor (audioDuration slide) = (k / 60)%Z).
  { rewrite (Qfloor_comp _ _ Hk). change 60 with (inject_Z (Z.pos 60)).
    apply Qfloor_div_pos. }
  rewrite Hm.
  assert (Hs : (audioDuration slide - inject_Z (k / 60)) * 60
               == inject_Z (k mod 60)).
  { rewrite Hk. pose proof (whole_split k) as W. qconst. lra. }
  rewrite (js_round_proper _ _ Hs), js_round_inject, Hk. apply whole_split.
Qed.

Lemma mount_keeps_whole_seconds_witness :
  audioDuration (sample_slide 1 [] AUDIO (125 # 60) true None)
    == inject_Z 125 / 60 /\
  ed_audioDuration (mounted (sample_slide 1 [] AUDIO (125 # 60) true None))
    == audioDuration (sample_slide 1 [] AUDIO (125 # 60) true None).
Proof.
  assert (H : audioDuration (sample_slide 1 [] AUDIO (125 # 60) true None)
              == inject_Z 125 / 60) by reflexivity.
  split; [exact H|]. exact (mount_keeps_whole_seconds _ _ H).
Defined.

(** [Finalize & Next]: when it navigates, the slide is finalized (in the
    editor and in any update sent); on an already finalized slide it only
    navigates, never unlocking it or sending an update; when it does not
    navigate, only the error message is set. *)
Theorem finalize_and_next_click (st : EditorState) :
  (out_result (handleFinalizeAndNextClick st) = true ->
     ed_isFinalized (out_state (handleFinalizeAndNextClick st)) = true /\
     (forall s, out_update (handleFinalizeAndNextClick st) = Some s ->
        isFinalized s = true)) /\
  (ed_isFinalized st = true ->
     out_result (handleFinalizeAndNextClick st) = true /\
     out_state (handleFinalizeAndNextClick st) = st /\
     out_update (handleFinalizeAndNextClick st) = None) /\
  (out_result (handleFinalizeAndNextClick st) = false ->
     out_state (handleFinalizeAndNextClick st)
       = set_finalizeError st (Some finalizeErrorMsg) /\
     out_update (handleFinalizeAndNextClick st) = None).
Proof.
  unfold handleFinalizeAndNextClick.
  destruct (ed_isFinalized st) eqn:F.
  - cbn [out_result out_state out_update].
    split; [intros _; split; [exact F|discriminate]|].
    split; [intros _; repeat split|discriminate].
  - unfold handleFinalize. rewrite F. cbn [negb andb].
    destruct (is_audio_or_both (ed_selectedSource st) && Qeq_bool (ed_audioDuration st) 0);
      cbn [out_result out_state out_update].
    + split; [discriminate|]. split; [discriminate|]. intros _; split; reflexivity.
    + split; [|split; [discriminate|discriminate]].
      intros _. split; [reflexivity|]. intros s [= <-]. reflexivity.
Qed.

(** Finalizing a draft and then unlocking it both succeed, and leave the
    editor as it was with the error cleared. *)
Theorem finalize_then_unlock (st : EditorState) :
  ed_isFinalized st = false -> out_result (handleFinalize st) = true ->
  out_result (handleFinalize (out_state (handleFinalize st))) = true /\
  out_state (handleFinalize (out_state (handleFinalize st)))
    = set_finalize st None false.
Proof.
  intros F R. unfold handleFinalize in *. rewrite F in *. cbn [negb andb] in *.
  destruct (is_audio_or_both (ed_selectedSource st) && Qeq_bool (ed_audioDuration st) 0);
    [discriminate R|].
  cbn [out_state out_result set_finalize ed_isFinalized negb andb].
  split; reflexivity.
Qed.

Lemma finalize_then_unlock_witness :
  ed_isFinalized (mount (sample_slide 1 [] AUDIO 2 false None) (JNum 2) (JNum 0))
    = false /\
  out_result (handleFinalize
    (mount (sample_slide 1 [] AUDIO 2 false None) (JNum 2) (JNum 0))) = true /\
  out_result (handleFinalize (out_state (handleFinalize
    (mount (sample_slide 1 [] AUDIO 2 false None) (JNum 2) (JNum 0))))) = true /\
  out_state (handleFinalize (out_state (handleFinalize
    (mount (sample_slide 1 [] AUDIO 2 false None) (JNum 2) (JNum 0)))))
    = set_finalize (mount (sample_slide 1 [] AUDIO 2 false None) (JNum 2) (JNum 0))
        None false.
Proof.
  assert (F : ed_isFinalized (mount (sample_slide 1 [] AUDIO 2 false None)
                                (JNum 2) (JNum 0)) = false) by reflexivity.
  assert (R : out_result (handleFinalize
                (mount (sample_slide 1 [] AUDIO 2 false None) (JNum 2) (JNum 0)))
              = true) by (vm_compute; reflexivity).
  split; [exact F|]. split; [exact R|]. exact (finalize_then_unlock _ F R).
Defined.

(** ** The audio modal *)

(** The modal's [formatDuration] on a whole number [k >= 0] of seconds
    writes [k div 60] and [k mod 60], each padded to two digits. *)
Theorem formatDuration_modal_whole_seconds (k : Z) :
  (0 <= k)%Z ->
  formatDuration (inject_Z k)
    = padStart2 (string_of_Z (k / 60)) ++ js ":"
        ++ padStart2 (string_of_Z (k mod 60)).
Proof.
  intro Hk. unfold formatDuration. cbv zeta.
  assert (Hg : js_gt 0 (inject_Z k) = false).
  { unfold js_gt. apply negb_false_iff. apply Qle_bool_iff.
    change 0 with (inject_Z 0). now rewrite <- Zle_Qle. }
  rewrite Hg. change 60 with (inject_Z (Z.pos 60)).
  rewrite Qfloor_div_pos, (js_round_proper _ _ (js_mod_whole k 60 Hk)),
    js_round_inject.
  reflexivity.
Qed.

Lemma formatDuration_modal_whole_seconds_witness :
  (0 <= 125)%Z /\
  formatDuration (inject_Z 125)
    = padStart2 (string_of_Z (125 / 60)) ++ js ":"
        ++ padStart2 (string_of_Z (125 mod 60)).
Proof.
  split; [lia|]. apply formatDuration_modal_whole_seconds. lia.
Defined.

Lemma trim_start_suffix (u : jsstring) : exists p, u = p ++ trim_start u.
Proof.
  induction u as [|c r IH]; [exists []; reflexivity|]. simpl.
  destruct (is_ws c); [|exists []; reflexivity].
  destruct IH as [p Hp]. exists (c :: p). simpl. now rewrite <- Hp.
Qed.

Lemma trim_start_head (u : jsstring) :
  match trim_start u with [] => True | c :: _ => is_ws c = false end.
Proof.
  induction u as [|c r IH]; simpl; [exact I|].
  destruct (is_ws c) eqn:E; [exact IH|exact E].
Qed.

Lemma trim_ends (t : jsstring) (c : ascii) (r : jsstring) :
  trim t = c :: r ->
  is_ws c = false /\ is_ws (last (c :: r) " "%char) = false.
Proof.
  unfold trim. intro H.
  set (a := trim_start t) in *.
  set (b := trim_start (rev a)) in *.
  pose proof (trim_start_head (rev a)) as Hb. fold b in Hb.
  destruct b as [|c' r'] eqn:Eb; [discriminate|].
  split.
  - destruct (trim_start_suffix (rev a)) as [p Hp]. fold b in Hp. rewrite Eb in Hp.
    assert (Ha : a = rev (c' :: r') ++ rev p)
      by (rewrite <- rev_app_distr, <- Hp; symmetry; apply rev_involutive).
    rewrite H in Ha. pose proof (trim_start_head t) as Ht. fold a in Ht.
    rewrite Ha in Ht. exact Ht.
  - rewrite <- H. simpl. rewrite last_last. exact Hb.
Qed.

Lemma split_ws_aux_all_truthy (s cur : jsstring) (in_sep : bool) :
  ((in_sep = true /\ cur = []) \/ (in_sep = false /\ cur <> [])) ->
  (s = [] -> in_sep = false) ->
  (s <> [] -> is_ws (last s " "%char) = false) ->
  forallb truthy_str (split_ws_aux cur in_sep s) = true.
Proof.
  revert cur in_sep. induction s as [|c r IH]; intros cur in_sep Hi He Hl.
  - simpl. rewrite (He eq_refl) in Hi.
    destruct Hi as [[? _]|[_ Hc]]; [discriminate|].
    destruct cur; [contradiction|reflexivity].
  - assert (Hr : r <> [] -> is_ws (last r " "%char) = false).
    { intro Hne. specialize (Hl ltac:(discriminate)).
      destruct r; [contradiction|exact Hl]. }
    simpl. destruct (is_ws c) eqn:Ec.
    + assert (Hne : r <> []).
      { intros ->. specialize (Hl ltac:(discriminate)). simpl in Hl. congruence. }
      assert (Hrec : forallb truthy_str (split_ws_aux [] true r) = true).
      { apply IH; [left; split; reflexivity|intros E; contradiction|exact Hr]. }
      destruct in_sep; [exact Hrec|].
      destruct Hi as [[? _]|[_ Hc]]; [discriminate|].
      simpl. rewrite Hrec. destruct cur; [contradiction|reflexivity].
    + apply IH; [right; split; [reflexivity|]|reflexivity|exact Hr].
      destruct cur; discriminate.
Qed.

Lemma split_ws_aux_nonempty (s cur : jsstring) (in_sep : bool) :
  split_ws_aux cur in_sep s <> [].
Proof.
  revert cur in_sep. induction s as [|c r IH]; intros cur in_sep; simpl;
    [discriminate|].
  destruct (is_ws c); [destruct in_sep; [apply IH|discriminate]|apply IH].
Qed.

Lemma split_trim_length (t : jsstring) :
  List.length (split_ws (trim t)) = Nat.max 1 (getWordCount t).
Proof.
  unfold getWordCount. destruct (trim t) as [|c r] eqn:E; [reflexivity|].
  destruct (trim_ends t c r E) as [Hc Hl].
  unfold split_ws. simpl. rewrite Hc.
  assert (Hall : forallb truthy_str (split_ws_aux [c] false r) = true).
  { apply split_ws_aux_all_truthy.
    - right. split; [reflexivity|discriminate].
    - reflexivity.
    - intro Hne. destruct r; [contradiction|exact Hl]. }
  rewrite filter_all_true by (apply forallb_forall; exact Hall).
  pose proof (split_ws_aux_nonempty r [c] false) as Hn.
  destruct (split_ws_aux [c] false r); [contradiction|]. simpl. lia.
Qed.

Lemma fold_add_sum {A} (g : A -> nat) (l : list A) (a : nat) :
  fold_left (fun acc x => acc + g x)%nat l a = (a + list_sum (map g l))%nat.
Proof.
  revert a. induction l as [|x r IH]; intro a; simpl; [lia|].
  rewrite IH. lia.
Qed.

(** The transcription's word count counts each segment as its number of
    words, but at least 1: a blank segment adds one word, unlike
    [getWordCount], which the calculator and the exports use. *)
Theorem transcriptionWordCount_blank_segments (segments : list jsstring) :
  transcriptionWordCount segments
    = list_sum (map (fun t => Nat.max 1 (getWordCount t)) segments).
Proof.
  unfold transcriptionWordCount. rewrite fold_add_sum. simpl.
  f_equal. apply map_ext. apply split_trim_length.
Qed.

(** ** The highlighter *)

Lemma replace_char_app (c : ascii) (r a b : jsstring) :
  replace_char c r (a ++ b) = replace_char c r a ++ replace_char c r b.
Proof. unfold replace_char. apply flat_map_app. Qed.

Lemma replace_char_single (c : ascii) (r : jsstring) (x : ascii) :
  replace_char c r [x] = if ascii_dec x c then r else [x].
Proof. unfold replace_char. simpl. apply app_nil_r. Qed.

Lemma escapeHtml_cons (x : ascii) (s : jsstring) :
  escapeHtml (x :: s) = escape_char x ++ escapeHtml s.
Proof.
  unfold escapeHtml, escape_char. change (x :: s) with ([x] ++ s).
  rewrite !replace_char_app. f_equal.
  rewrite replace_char_single. destruct (ascii_dec x "&"%char) as [->|H1];
    [reflexivity|].
  rewrite replace_char_single. destruct (ascii_dec x "<"%char) as [->|H2];
    [reflexivity|].
  rewrite replace_char_single. destruct (ascii_dec x ">"%char) as [->|H3];
    [reflexivity|].
  rewrite replace_char_single. destruct (ascii_dec x dquote) as [->|H4];
    [reflexivity|].
  rewrite replace_char_single. destruct (ascii_dec x squote) as [->|H5];
    reflexivity.
Qed.

Lemma escape_char_safe (x c : ascii) :
  In c (escape_char x) ->
  c <> "<"%char /\ c <> ">"%char /\ c <> dquote /\ c <> squote.
Proof.
  unfold escape_char.
  destruct (ascii_dec x "&"%char);
    [intro H; simpl in H; repeat destruct H as [<-|H]; try contradiction;
     vm_compute; repeat split; discriminate|].
  destruct (ascii_dec x "<"%char);
    [intro H; simpl in H; repeat destruct H as [<-|H]; try contradiction;
     vm_compute; repeat split; discriminate|].
  destruct (ascii_dec x ">"%char);
    [intro H; simpl in H; repeat destruct H as [<-|H]; try contradiction;
     vm_compute; repeat split; discriminate|].
  destruct (ascii_dec x dquote);
    [intro H; simpl in H; repeat destruct H as [<-|H]; try contradiction;
     vm_compute; repeat split; discriminate|].
  destruct (ascii_dec x squote);
    [intro H; simpl in H; repeat destruct H as [<-|H]; try contradiction;
     vm_compute; repeat split; discriminate|].
  intros [<-|[]]. repeat split; assumption.
Qed.

(** The five successive replacements of [escapeHtml] act as one
    character-by-character escaping (the [&] introduced by the later
    replacements is never escaped again), and the output contains no [<],
    [>], double quote or single quote. *)
Theorem escapeHtml_charwise (s : jsstring) :
  escapeHtml s = flat_map escape_char s /\
  (forall c, In c (escapeHtml s) ->
     c <> "<"%char /\ c <> ">"%char /\ c <> dquote /\ c <> squote).
Proof.
  assert (E : escapeHtml s = flat_map escape_char s).
  { induction s as [|x r IH]; [reflexivity|].
    rewrite escapeHtml_cons, IH. reflexivity. }
  split; [exact E|]. rewrite E. intros c Hc.
  apply in_flat_map in Hc as [x [_ Hx]]. exact (escape_char_safe x c Hx).
Qed.

(** ** File dispatch *)

Lemma split_on_aux_nodelim (d : ascii) (cur e : jsstring) :
  ~ In d e -> split_on_aux d cur e = [cur ++ e].
Proof.
  revert cur. induction e as [|c r IH]; intros cur Hn; simpl.
  - now rewrite app_nil_r.
  - destruct (ascii_dec c d) as [->|Hc]; [exfalso; apply Hn; now left|].
    rewrite IH by (intro H; apply Hn; now right).
    now rewrite <- app_assoc.
Qed.

Lemma split_on_aux_nonempty (d : ascii) (cur s : jsstring) :
  split_on_aux d cur s <> [].
Proof.
  revert cur. induction s as [|c r IH]; intro cur; simpl; [discriminate|].
  destruct (ascii_dec c d); [discriminate|apply IH].
Qed.

Lemma split_on_aux_last (d : ascii) (cur p e : jsstring) :
  ~ In d e -> last (split_on_aux d cur (p ++ d :: e)) [] = e.
Proof.
  intro Hn. revert cur. induction p as [|c r IH]; intro cur; simpl.
  - destruct (ascii_dec d d) as [_|Hd]; [|contradiction].
    now rewrite split_on_aux_nodelim.
  - destruct (ascii_dec c d).
    + pose proof (split_on_aux_nonempty d [] (r ++ d :: e)) as Hne.
      specialize (IH []).
      destruct (split_on_aux d [] (r ++ d :: e)); [contradiction|exact IH].
    + apply IH.
Qed.

(** [parseFile] picks the parser from the text after the last dot of the
    file name, ignoring case; a name without a dot is read as its own
    extension. *)
Theorem parseFile_kind_last_extension (p e : jsstring) :
  ~ In "."%char e ->
  parseFile_kind (p ++ "."%char :: e) = fileKind_of_extension (toLowerCase e) /\
  parseFile_kind e = fileKind_of_extension (toLowerCase e).
Proof.
  intro Hn. unfold parseFile_kind, split_on. split.
  - now rewrite split_on_aux_last.
  - now rewrite split_on_aux_nodelim.
Qed.

Lemma parseFile_kind_last_extension_witness :
  ~ In "."%char (js "XLSX") /\
  parseFile_kind (js "deck.v2" ++ "."%char :: js "XLSX") = KXlsx /\
  parseFile_kind (js "XLSX") = KXlsx.
Proof.
  assert (H : ~ In "."%char (js "XLSX")).
  { simpl. intros H. repeat destruct H as [H|H]; try discriminate; contradiction. }
  destruct (parseFile_kind_last_extension (js "deck.v2") _ H) as [H1 H2].
  split; [exact H|]. split; [rewrite H1|rewrite H2]; vm_compute; reflexivity.
Defined.

(** ** Printing and reading integers *)

Lemma digit_char_props (k : nat) :
  (k < 10)%nat ->
  is_ws (ascii_of_nat (48 + k)) = false /\
  ascii_of_nat (48 + k) <> "-"%char /\ ascii_of_nat (48 + k) <> "+"%char /\
  is_digit (ascii_of_nat (48 + k)) = true /\
  nat_of_ascii (ascii_of_nat (48 + k)) = (48 + k)%nat.
Proof.
  intro Hk.
  do 10 (destruct k as [|k];
    [vm_compute; split; [reflexivity|]; split; [discriminate|];
     split; [discriminate|]; split; reflexivity|]).
  lia.
Qed.

Lemma digit_char_mod (m : Z) :
  exists k, (k < 10)%nat /\ digit_char (m mod 10) = ascii_of_nat (48 + k) /\
            Z.of_nat k = (m mod 10)%Z.
Proof.
  exists (Z.to_nat (m mod 10)). unfold digit_char.
  pose proof (Z.mod_pos_bound m 10 ltac:(lia)).
  split; [lia|]. split; [reflexivity|lia].
Qed.

Lemma digits_rev_chars (f : nat) (n : Z) :
  Forall (fun c => exists k, (k < 10)%nat /\ c = ascii_of_nat (48 + k))
    (digits_rev f n).
Proof.
  revert n. induction f as [|f IH]; intro n; simpl; [constructor|].
  constructor.
  - destruct (digit_char_mod n) as [k [Hk [E _]]]. now exists k.
  - destruct (n / 10 =? 0)%Z; [constructor|apply IH].
Qed.

Lemma digits_rev_read (f : nat) (n acc : Z) (seen : bool) (rest : jsstring) :
  (0 < f)%nat -> (0 <= n < 2 ^ Z.of_nat f)%Z ->
  digits_aux acc seen (rev (digits_rev f n) ++ rest)
  = digits_aux (acc * 10 ^ Z.of_nat (List.length (digits_rev f n)) + n) true rest.
Proof.
  revert n acc seen rest. induction f as [|f IH]; intros n acc seen rest Hf Hn;
    [lia|].
  destruct (digit_char_mod n) as [k [Hk [Ed Ek]]].
  destruct (digit_char_props k Hk) as [_ [_ [_ [Hdig Hnat]]]].
  cbn [digits_rev rev List.length].
  rewrite <- app_assoc. cbn [app].
  pose proof (Z.div_mod n 10 ltac:(lia)) as Hdm.
  pose proof (Z.mod_pos_bound n 10 ltac:(lia)) as Hb.
  destruct (Z.eqb_spec (n / 10) 0) as [Hz|Hz].
  - cbn [rev app List.length digits_aux]. rewrite Ed, Hdig, Hnat.
    replace (48 + k - 48)%nat with k by lia. rewrite Ek.
    change (Z.of_nat 1) with 1%Z. rewrite Z.pow_1_r. f_equal. lia.
  - assert (Hf' : (0 < f)%nat).
    { destruct f; [|lia]. simpl in Hn. lia. }
    assert (Hn' : (0 <= n / 10 < 2 ^ Z.of_nat f)%Z).
    { split; [apply Z.div_pos; lia|].
      rewrite Nat2Z.inj_succ, Z.pow_succ_r in Hn by lia.
      apply Z.div_lt_upper_bound; [lia|].
      pose proof (Z.pow_pos_nonneg 2 (Z.of_nat f) ltac:(lia) ltac:(lia)). lia. }
    rewrite (IH (n / 10)%Z acc seen _ Hf' Hn').
    cbn [digits_aux]. rewrite Ed, Hdig, Hnat.
    replace (48 + k - 48)%nat with k by lia. rewrite Ek.
    rewrite Nat2Z.inj_succ, Z.pow_succ_r by lia.
    set (P := (10 ^ Z.of_nat (List.length (digits_rev f (n / 10))))%Z).
    f_equal. lia.
Qed.

Lemma string_of_Z_read (z : Z) :
  exists c r, string_of_Z z = c :: r /\ is_ws c = false /\
  ((z < 0)%Z /\ c = "-"%char /\ digits_aux 0 false r = Some (- z)%Z \/
   (0 <= z)%Z /\ c <> "-"%char /\ c <> "+"%char /\
   digits_aux 0 false (c :: r) = Some z).
Proof.
  unfold string_of_Z. cbv zeta.
  set (n := Z.abs z). set (f := S (Z.to_nat (Z.log2 n))).
  assert (Hn : (0 <= n < 2 ^ Z.of_nat f)%Z).
  { unfold f. rewrite Nat2Z.inj_succ, Z2Nat.id by apply Z.log2_nonneg.
    split; [apply Z.abs_nonneg|].
    destruct (Z.eq_dec n 0) as [E|E]; [rewrite E; reflexivity|].
    apply Z.log2_spec. unfold n in *. lia. }
  assert (Hread : digits_aux 0 false (rev (digits_rev f n)) = Some n).
  { rewrite <- (app_nil_r (rev (digits_rev f n))).
    rewrite digits_rev_read by (unfold f; lia || exact Hn).
    reflexivity. }
  pose proof (digits_rev_chars f n) as Hch.
  destruct (rev (digits_rev f n)) as [|d ds] eqn:Er.
  { destruct f; [discriminate|]. simpl in Er.
    apply app_eq_nil in Er as [_ Er]. discriminate. }
  assert (Hd : exists k, (k < 10)%nat /\ d = ascii_of_nat (48 + k)).
  { rewrite Forall_forall in Hch. apply Hch. apply in_rev. rewrite Er. now left. }
  destruct Hd as [k [Hk ->]].
  destruct (digit_char_props k Hk) as [Hws [Hm [Hp _]]].
  destruct (Z.ltb_spec z 0) as [Hz|Hz].
  - exists "-"%char, (ascii_of_nat (48 + k) :: ds). split; [reflexivity|].
    split; [reflexivity|]. left. split; [exact Hz|]. split; [reflexivity|].
    rewrite Hread. f_equal. unfold n. lia.
  - exists (ascii_of_nat (48 + k)), ds. split; [reflexivity|].
    split; [exact Hws|]. right. split; [exact Hz|]. split; [exact Hm|].
    split; [exact Hp|]. rewrite Hread. f_equal. unfold n. lia.
Qed.

(** Reading back what [String(z)] prints: [parseInt(String(z), 10)] is
    [z] for every integer, so a question count typed as an integer is
    stored as that integer, a negative one included (the input's
    [min="0"] does not stop it). *)
Theorem questionInput_reads_integers (z : Z) :
  parseInt10 (string_of_Z z) = Some z /\
  questionInput (string_of_Z z) = inject_Z z.
Proof.
  assert (H : parseInt10 (string_of_Z z) = Some z).
  { destruct (string_of_Z_read z) as [c [r [E [Hws H]]]].
    unfold parseInt10. rewrite E. cbn [trim_start]. rewrite Hws.
    destruct H as [[Hz [-> Hd]]|[Hz [Hm [Hp Hd]]]].
    - cbn [ascii_dec]. destruct (ascii_dec "-"%char "-"%char); [|contradiction].
      rewrite Hd. simpl. f_equal. lia.
    - destruct (ascii_dec c "-"%char); [contradiction|].
      destruct (ascii_dec c "+"%char); [contradiction|]. exact Hd. }
  split; [exact H|]. unfold questionInput. rewrite H.
  destruct (Z.eqb_spec z 0) as [->|]; reflexivity.
Qed.

(** ** Discarding from the editor *)

(** Confirming a discard with a reason sends the editor's current content
    (text, transcript, source, duration, audio metadata), stamps it with
    the time and [user], and keeps the typed note only when the reason is
    [Other]: with any other reason the note is sent empty. *)
Theorem discard_confirm_saves_editor (st : EditorState) (now : jsstring) :
  ed_discardReason st <> [] ->
  exists d : Slide,
    out_update (handleDiscardConfirm st now) = Some d /\
    id d = id (ed_slide st) /\ ost d = ed_ost st /\
    transcript d = ed_transcript st /\
    selectedSource d = ed_selectedSource st /\
    audioDuration d = ed_audioDuration st /\ audioMeta d = ed_audioMeta st /\
    discardedAt d = Some now /\ discardedBy d = Some (js "user") /\
    discardNote d = Some (if jsstring_eqb (ed_discardReason st) (js "Other")
                          then ed_discardNote st else []).
Proof.
  intro H. unfold handleDiscardConfirm, jsstring_eqb.
  destruct (ed_discardReason st) as [|c r]; [contradiction|].
  eexists. split; [reflexivity|].
  cbn [id ost transcript selectedSource audioDuration audioMeta discardedAt
       discardedBy discardNote].
  repeat split. destruct (list_eq_dec ascii_dec (c :: r) (js "Other")); reflexivity.
Qed.

Lemma discard_confirm_saves_editor_witness :
  ed_discardReason (set_discard_choice
    (mount (sample_slide 1 (js "x") OST 0 false None) (JNum 0) (JNum 0))
    (js "Duplicate content") (js "see slide 2")) <> [] /\
  out_update (handleDiscardConfirm (set_discard_choice
    (mount (sample_slide 1 (js "x") OST 0 false None) (JNum 0) (JNum 0))
    (js "Duplicate content") (js "see slide 2")) (js "now")) <> None /\
  exists d : Slide,
    out_update (handleDiscardConfirm (set_discard_choice
      (mount (sample_slide 1 (js "x") OST 0 false None) (JNum 0) (JNum 0))
      (js "Duplicate content") (js "see slide 2")) (js "now")) = Some d /\
    discardNote d = Some [].
Proof.
  assert (H : ed_discardReason (set_discard_choice
    (mount (sample_slide 1 (js "x") OST 0 false None) (JNum 0) (JNum 0))
    (js "Duplicate content") (js "see slide 2")) <> []) by discriminate.
  destruct (discard_confirm_saves_editor _ (js "now") H)
    as [d [Hd [_ [_ [_ [_ [_ [_ [_ [_ Hn]]]]]]]]]].
  split; [exact H|]. split; [rewrite Hd; discriminate|].
  exists d. split; [exact Hd|]. rewrite Hn. reflexivity.
Defined.

(** ** The summary table *)

(** The summary table's [Word Count] column (the [N/A] cells read as 0)
    adds up to the [totalWords] of the metrics the screen shows, and its
    [AV Mins] column, before formatting, to their [totalAvMinutes]. *)
Theorem finalization_table_sums (slides : list Slide) (r f : jsnum) :
  sumQ (map (fun s => cell_number (wordCountCell s)) slides)
    == totalWords (finalizationMetrics slides r f) /\
  sumQ (map avMinsCell slides)
    == totalAvMinutes (finalizationMetrics slides r f).
Proof.
  unfold finalizationMetrics.
  rewrite totalWords_sum, totalAvMinutes_sum, filter_idem.
  split.
  - induction slides as [|x l IH]; simpl; [reflexivity|].
    unfold wordCountCell at 1. destruct (is_active x); simpl.
    + rewrite IH. unfold word_contribution.
      destruct (selectedSource x); simpl; reflexivity.
    + rewrite IH. lra.
  - induction slides as [|x l IH]; simpl; [reflexivity|].
    unfold avMinsCell at 1. destruct (is_active x); simpl.
    + rewrite IH. unfold time_contribution.
      destruct (selectedSource x); simpl; reflexivity.
    + rewrite IH. lra.
Qed.
